(** * Distiller e-ink display SDK: a shallow embedding and its properties

    The development follows [distiller_display_sdk.c] and
    [distiller_display_sdk.h].  The driver's file-scope variables are a
    record, every call into libc, libgpiod, spidev or lodepng is an event of
    a log, and what those calls answer comes from an environment that the
    theorems quantify over.  C statements are chained in a state-and-fault
    monad: a fault is a dereference of a null pointer or an access outside
    a buffer. *)

From Stdlib Require Import ZArith QArith List Bool String Lia.
From stdpp Require Import base numbers option list gmap.
From Equations Require Import Equations.

Open Scope Z_scope.

(** ** Constants of the header *)

Definition EPD_WIDTH : Z := 128.
Definition EPD_HEIGHT : Z := 250.
Definition EPD_ARRAY : Z := (EPD_WIDTH * EPD_HEIGHT) `quot` 8.

Definition DC_PIN : Z := 7.
Definition RST_PIN : Z := 13.
Definition BUSY_PIN : Z := 9.
Definition CS_PIN : Z := 8.

Inductive display_mode_t := DISPLAY_MODE_FULL | DISPLAY_MODE_PARTIAL.

Inductive image_format_t := IMAGE_FORMAT_RAW | IMAGE_FORMAT_PNG.

(** [SPI_MODE_0] of <linux/spi/spidev.h>. *)
Definition SPI_MODE_0 : Z := 0.

(** ** C integers

    Values are in [Z]; the conversions that C performs are written out. *)

Definition to_unsigned (z : Z) : Z := z `mod` 2 ^ 32.
Definition to_uchar (z : Z) : Z := z `mod` 256.

(** A pointer to an opaque library object is its address, [NULL] is 0. *)
Definition NULL : Z := 0.
Definition is_null (p : Z) : bool := p =? NULL.

(** ** The outside world *)

Inductive PrintfArg := ArgInt (z : Z) | ArgStr (s : string).

Inductive IoctlReq :=
  | SPI_IOC_WR_MODE
  | SPI_IOC_WR_BITS_PER_WORD
  | SPI_IOC_WR_MAX_SPEED_HZ.

(** [struct spi_ioc_transfer], with the byte that [tx_buf] points to. *)
Record spi_ioc_transfer := mk_transfer {
  tx : Z;
  rx_buf : Z;
  len : Z;
  speed_hz : Z;
  bits_per_word : Z;
  delay_usecs : Z;
  cs_change : Z
}.

(** One event per call that leaves the driver.  A read of a line records
    the level it returned. *)
Inductive Event :=
  | EvUsleep (usec : Z)
  | EvPrintf (fmt : string) (args : list PrintfArg)
  | EvPerror (msg : string)
  | EvOpen (path : string)
  | EvClose (fd : Z)
  | EvIoctl (fd : Z) (req : IoctlReq) (arg : Z)
  | EvSpiTransfer (fd : Z) (tr : spi_ioc_transfer)
  | EvChipOpen (name : string)
  | EvChipClose (c : Z)
  | EvGetLine (c : Z) (pin : Z)
  | EvRequestOutput (line : Z) (consumer : string) (default : Z)
  | EvRequestInput (line : Z) (consumer : string)
  | EvLineSetValue (line : Z) (value : Z)
  | EvLineGetValue (line : Z) (level : Z)
  | EvLineRelease (line : Z)
  | EvDecode (filename : string)
  | EvFree (ptr : Z).

(** What [lodepng_decode32_file] hands back: its error code, the two
    dimensions and the buffer it allocated (address and contents). *)
Record Decoded := mk_decoded {
  dec_error : Z;
  dec_width : Z;
  dec_height : Z;
  dec_ptr : Z;
  dec_data : list Z
}.

(** The answers of the outside world.  The first argument is the time of
    the call, counted in events logged so far. *)
Record Env := mk_env {
  open_result : nat → string → Z;
  ioctl_result : nat → Z;
  chip_open_result : nat → Z;
  get_line_result : nat → Z → Z;
  request_result : nat → Z;
  set_value_result : nat → Z;
  get_value_result : nat → Z;
  decode_result : nat → string → Decoded;
  lodepng_error_text : Z → string;
  uninit_byte : nat → nat → Z
}.

(** ** The driver's private variables *)

Record Driver := mk_driver {
  spi_fd : Z;
  chip : Z;
  dc_line : Z;
  rst_line : Z;
  busy_line : Z;
  initialized : bool
}.

(** The values the C initialisers give them. *)
Definition driver_boot : Driver :=
  {| spi_fd := -1; chip := NULL; dc_line := NULL; rst_line := NULL;
     busy_line := NULL; initialized := false |}.

(** The log holds the newest event first. *)
Record World := mk_world {
  drv : Driver;
  log : list Event
}.

Definition world_boot : World := {| drv := driver_boot; log := [] |}.

(** ** The monad *)

Inductive Res (A : Type) :=
  | Ok (a : A) (w : World)
  | Fault.
Arguments Ok {A} a w.
Arguments Fault {A}.

Definition M (A : Type) : Type := World → Res A.

#[global] Instance M_ret : MRet M := λ A a w, Ok a w.
#[global] Instance M_bind : MBind M := λ A B k m w,
  match m w with
  | Ok a w' => k a w'
  | Fault => Fault
  end.

Definition fault {A} : M A := λ _, Fault.
Definition emit (e : Event) : M unit :=
  λ w, Ok tt {| drv := drv w; log := e :: log w |}.
Definition now : M nat := λ w, Ok (length (log w)) w.
Definition get_drv : M Driver := λ w, Ok (drv w) w.
Definition put_drv (d : Driver) : M unit :=
  λ w, Ok tt {| drv := d; log := log w |}.

Definition set_spi_fd (v : Z) : M unit :=
  d ← get_drv;
  put_drv {| spi_fd := v; chip := chip d; dc_line := dc_line d;
             rst_line := rst_line d; busy_line := busy_line d;
             initialized := initialized d |}.
Definition set_chip (v : Z) : M unit :=
  d ← get_drv;
  put_drv {| spi_fd := spi_fd d; chip := v; dc_line := dc_line d;
             rst_line := rst_line d; busy_line := busy_line d;
             initialized := initialized d |}.
Definition set_dc_line (v : Z) : M unit :=
  d ← get_drv;
  put_drv {| spi_fd := spi_fd d; chip := chip d; dc_line := v;
             rst_line := rst_line d; busy_line := busy_line d;
             initialized := initialized d |}.
Definition set_rst_line (v : Z) : M unit :=
  d ← get_drv;
  put_drv {| spi_fd := spi_fd d; chip := chip d; dc_line := dc_line d;
             rst_line := v; busy_line := busy_line d;
             initialized := initialized d |}.
Definition set_busy_line (v : Z) : M unit :=
  d ← get_drv;
  put_drv {| spi_fd := spi_fd d; chip := chip d; dc_line := dc_line d;
             rst_line := rst_line d; busy_line := v;
             initialized := initialized d |}.
Definition set_initialized (v : bool) : M unit :=
  d ← get_drv;
  put_drv {| spi_fd := spi_fd d; chip := chip d; dc_line := dc_line d;
             rst_line := rst_line d; busy_line := busy_line d;
             initialized := v |}.

(** Counted loops [for (i = lo; i < hi; i++)] whose body leaves [i] and
    the bound alone, in any monad, threading the data the body updates. *)
Fixpoint for_up `{MBind F, MRet F} {S : Type}
    (n : nat) (i : Z) (body : Z → S → F S) (s : S) : F S :=
  match n with
  | O => mret s
  | Datatypes.S n' => s' ← body i s; for_up n' (i + 1) body s'
  end.

Definition for_range `{MBind F, MRet F} {S : Type}
    (lo hi : Z) (body : Z → S → F S) (s : S) : F S :=
  for_up (Z.to_nat (hi - lo)) lo body s.

(** ** Buffers

    A byte buffer is the list of its bytes; a pointer to one is [None]
    when it is [NULL].  An access past the end faults. *)

Definition memset (buf : list Z) (c : Z) (n : Z) : option (list Z) :=
  if n <=? Z.of_nat (length buf)
  then Some (replicate (Z.to_nat n) (to_uchar c) ++ drop (Z.to_nat n) buf)
  else None.

Definition load (buf : list Z) (i : Z) : option Z :=
  if i <? 0 then None else buf !! Z.to_nat i.

Definition store (buf : list Z) (i : Z) (v : Z) : option (list Z) :=
  match load buf i with
  | Some _ => Some (<[Z.to_nat i := v]> buf)
  | None => None
  end.

(** Objects of type [uint32_t] that the caller owns, by address.  A store
    through [NULL] faults; any other pointer is taken to point to such an
    object. *)
Definition store32 (p : Z) (v : Z) (mem : gmap Z Z) : M (gmap Z Z) :=
  if is_null p then fault else mret (<[p := to_unsigned v]> mem).

Definition lift {A} (o : option A) : M A :=
  match o with
  | Some a => mret a
  | None => fault
  end.

(** ** The image codec: the loop body of [convert_png_to_1bit] *)

Definition gray_of (r g b : Z) : Z := to_uchar ((r + g + b) `quot` 3).

Definition bit_of (gray : Z) : Z := if 128 <? gray then 1 else 0.

Definition pixel_step (width : Z) (image_data : list Z) (y x : Z)
    (output_data : list Z) : option (list Z) :=
  let pixel_idx := to_unsigned (y * width + x) in
  let rgba_idx := to_unsigned (pixel_idx * 4) in
  r ← load image_data rgba_idx;
  g ← load image_data (to_unsigned (rgba_idx + 1));
  b ← load image_data (to_unsigned (rgba_idx + 2));
  let gray := gray_of r g b in
  let bit := bit_of gray in
  let bit_idx := pixel_idx in
  let byte_idx := bit_idx `div` 8 in
  let bit_pos := to_unsigned (7 - bit_idx `mod` 8) in
  if bit =? 0 then Some output_data
  else
    old ← load output_data byte_idx;
    store output_data byte_idx (to_uchar (Z.lor old (1 ≪ bit_pos))).

Definition pack_pixels (width height : Z) (image_data : list Z)
    (output_data : list Z) : option (list Z) :=
  for_range 0 height
    (λ y out, for_range 0 width (pixel_step width image_data y) out)
    output_data.

(** ** Calls that leave the driver

    libgpiod dereferences the chip or line it is given, so a [NULL]
    argument is a fault; [close] and [ioctl] take any descriptor. *)

Section Driver.

Context (E : Env).

Definition usleep (usec : Z) : M unit := emit (EvUsleep usec).

Definition printf (fmt : string) (args : list PrintfArg) : M unit :=
  emit (EvPrintf fmt args).

Definition perror (msg : string) : M unit := emit (EvPerror msg).

Definition c_open (path : string) : M Z :=
  t ← now; emit (EvOpen path);; mret (open_result E t path).

Definition c_close (fd : Z) : M unit := emit (EvClose fd).

Definition ioctl (fd : Z) (req : IoctlReq) (arg : Z) : M Z :=
  t ← now; emit (EvIoctl fd req arg);; mret (ioctl_result E t).

Definition ioctl_spi_message (fd : Z) (tr : spi_ioc_transfer) : M Z :=
  t ← now; emit (EvSpiTransfer fd tr);; mret (ioctl_result E t).

Definition gpiod_chip_open_by_name (name : string) : M Z :=
  t ← now; emit (EvChipOpen name);; mret (chip_open_result E t).

Definition gpiod_chip_close (c : Z) : M unit :=
  if is_null c then fault else emit (EvChipClose c).

Definition gpiod_chip_get_line (c : Z) (pin : Z) : M Z :=
  if is_null c then fault
  else t ← now; emit (EvGetLine c pin);; mret (get_line_result E t pin).

Definition gpiod_line_request_output (line : Z) (consumer : string)
    (default : Z) : M Z :=
  if is_null line then fault
  else t ← now; emit (EvRequestOutput line consumer default);;
       mret (request_result E t).

Definition gpiod_line_request_input (line : Z) (consumer : string) : M Z :=
  if is_null line then fault
  else t ← now; emit (EvRequestInput line consumer);;
       mret (request_result E t).

Definition gpiod_line_set_value (line : Z) (value : Z) : M Z :=
  if is_null line then fault
  else t ← now; emit (EvLineSetValue line value);;
       mret (set_value_result E t).

Definition gpiod_line_get_value (line : Z) : M Z :=
  if is_null line then fault
  else t ← now;
       let level := get_value_result E t in
       emit (EvLineGetValue line level);; mret level.

Definition gpiod_line_release (line : Z) : M unit :=
  if is_null line then fault else emit (EvLineRelease line).

Definition lodepng_decode32_file (filename : string) : M Decoded :=
  t ← now; emit (EvDecode filename);; mret (decode_result E t filename).

Definition free (ptr : Z) : M unit := emit (EvFree ptr).

(** An array declared without an initialiser holds whatever the stack
    held. *)
Definition uninit_array (n : Z) : M (list Z) :=
  t ← now; mret (map (uninit_byte E t) (seq 0 (Z.to_nat n))).

(** ** Private functions *)

Definition delay_ms (ms : Z) : M unit := usleep (to_unsigned (ms * 1000)).

Definition gpio_write (pin value : Z) : M unit :=
  d ← get_drv;
  let line :=
    if pin =? DC_PIN then dc_line d
    else if pin =? RST_PIN then rst_line d
    else NULL in
  if is_null line then mret tt
  else
    r ← gpiod_line_set_value line value;
    if r <? 0
    then printf "Error: Failed to set GPIO %d to %d\n" [ArgInt pin; ArgInt value]
    else mret tt.

Definition gpio_read (pin : Z) : M Z :=
  d ← get_drv;
  if (pin =? BUSY_PIN) && negb (is_null (busy_line d))
  then gpiod_line_get_value (busy_line d)
  else mret (-1).

Definition spi_delay : M unit := usleep 10.

(** The [while] of [lcd_chkstatus]: the line is read first, the counter
    is compared only when it read 1.  It returns the counter at exit. *)
Equations? chkstatus_loop (watchdog_counter : Z) (w : World) : Res Z
    by wf (Z.to_nat (1000 - watchdog_counter)) lt :=
  chkstatus_loop watchdog_counter w with gpio_read BUSY_PIN w => {
    | Fault => Fault
    | Ok level w1 with decide (level = 1 ∧ watchdog_counter < 1000) => {
        | left _ with delay_ms 10 w1 => {
            | Fault => Fault
            | Ok _ w2 => chkstatus_loop (watchdog_counter + 1) w2 }
        | right _ => Ok watchdog_counter w1 } }.
Proof. lia. Qed.

Definition lcd_chkstatus : M unit :=
  watchdog_counter ← chkstatus_loop 0;
  if 1000 <=? watchdog_counter
  then printf "Warning: Display busy timeout\n" []
  else mret tt.

Definition byte_transfer (b : Z) : spi_ioc_transfer :=
  {| tx := b; rx_buf := 0; len := 1; speed_hz := 40000000;
     bits_per_word := 8; delay_usecs := 0; cs_change := 1 |}.

Definition epd_w21_write_cmd (cmd : Z) : M unit :=
  d ← get_drv;
  if spi_fd d <? 0 then mret tt
  else
    spi_delay;;
    gpio_write DC_PIN 0;;
    r ← ioctl_spi_message (spi_fd d) (byte_transfer cmd);
    if r <? 0 then perror "Error in SPI command transfer" else mret tt.

Definition epd_w21_write_data (data : Z) : M unit :=
  d ← get_drv;
  if spi_fd d <? 0 then mret tt
  else
    spi_delay;;
    gpio_write DC_PIN 1;;
    r ← ioctl_spi_message (spi_fd d) (byte_transfer data);
    if r <? 0 then perror "Error in SPI data transfer" else mret tt.

Definition epd_init_hardware : M unit :=
  gpio_write RST_PIN 0;;
  delay_ms 10;;
  gpio_write RST_PIN 1;;
  delay_ms 10;;
  lcd_chkstatus;;
  epd_w21_write_cmd 0x12;;
  lcd_chkstatus;;
  epd_w21_write_cmd 0x01;;
  epd_w21_write_data (to_uchar ((EPD_HEIGHT - 1) `rem` 256));;
  epd_w21_write_data (to_uchar ((EPD_HEIGHT - 1) `quot` 256));;
  epd_w21_write_data 0x00;;
  epd_w21_write_cmd 0x11;;
  epd_w21_write_data 0x01;;
  epd_w21_write_cmd 0x44;;
  epd_w21_write_data 0x00;;
  epd_w21_write_data (to_uchar (EPD_WIDTH `quot` 8 - 1));;
  epd_w21_write_cmd 0x45;;
  epd_w21_write_data (to_uchar ((EPD_HEIGHT - 1) `rem` 256));;
  epd_w21_write_data (to_uchar ((EPD_HEIGHT - 1) `quot` 256));;
  epd_w21_write_data 0x00;;
  epd_w21_write_data 0x00;;
  epd_w21_write_cmd 0x3C;;
  epd_w21_write_data 0x05;;
  epd_w21_write_cmd 0x21;;
  epd_w21_write_data 0x00;;
  epd_w21_write_data 0x80;;
  epd_w21_write_cmd 0x18;;
  epd_w21_write_data 0x80;;
  epd_w21_write_cmd 0x4E;;
  epd_w21_write_data 0x00;;
  epd_w21_write_cmd 0x4F;;
  epd_w21_write_data (to_uchar ((EPD_HEIGHT - 1) `rem` 256));;
  epd_w21_write_data (to_uchar ((EPD_HEIGHT - 1) `quot` 256));;
  lcd_chkstatus.

Definition epd_init_partial : M unit :=
  epd_w21_write_cmd 0x3C;;
  epd_w21_write_data 0x80.

Definition epd_update : M unit :=
  epd_w21_write_cmd 0x22;;
  epd_w21_write_data 0xF7;;
  epd_w21_write_cmd 0x20;;
  lcd_chkstatus.

Definition epd_update_partial : M unit :=
  epd_w21_write_cmd 0x22;;
  epd_w21_write_data 0xFF;;
  epd_w21_write_cmd 0x20;;
  lcd_chkstatus.

(** ** Public API *)

Definition display_cleanup : M unit :=
  d ← get_drv;
  (if 0 <=? spi_fd d then c_close (spi_fd d);; set_spi_fd (-1) else mret tt);;
  d ← get_drv;
  (if negb (is_null (dc_line d))
   then gpiod_line_release (dc_line d);; set_dc_line NULL else mret tt);;
  d ← get_drv;
  (if negb (is_null (rst_line d))
   then gpiod_line_release (rst_line d);; set_rst_line NULL else mret tt);;
  d ← get_drv;
  (if negb (is_null (busy_line d))
   then gpiod_line_release (busy_line d);; set_busy_line NULL else mret tt);;
  d ← get_drv;
  (if negb (is_null (chip d))
   then gpiod_chip_close (chip d);; set_chip NULL else mret tt);;
  set_initialized false;;
  printf "Display SDK cleaned up\n" [].

(** [a || b || c] over calls: a later call is made only when the earlier
    ones answered zero or more. *)
Definition any_negative (calls : list (M Z)) : M bool :=
  foldr (λ call rest, r ← call; if r <? 0 then mret true else rest)
        (mret false) calls.

Definition display_init : M bool :=
  d ← get_drv;
  if initialized d then mret true
  else
    fd ← c_open "/dev/spidev0.0";
    set_spi_fd fd;;
    if fd <? 0 then perror "Error opening SPI device";; mret false
    else
      let mode := SPI_MODE_0 in
      let bits := 8 in
      let speed := 40000000 in
      failed ← any_negative
        [ ioctl fd SPI_IOC_WR_MODE mode;
          ioctl fd SPI_IOC_WR_BITS_PER_WORD bits;
          ioctl fd SPI_IOC_WR_MAX_SPEED_HZ speed ];
      if failed : bool
      then perror "Error configuring SPI";;
           c_close fd;; set_spi_fd (-1);; mret false
      else
        c ← gpiod_chip_open_by_name "gpiochip0";
        set_chip c;;
        if is_null c
        then perror "Error opening GPIO chip";;
             c_close fd;; set_spi_fd (-1);; mret false
        else
          dc ← gpiod_chip_get_line c DC_PIN;
          set_dc_line dc;;
          rst ← gpiod_chip_get_line c RST_PIN;
          set_rst_line rst;;
          busy ← gpiod_chip_get_line c BUSY_PIN;
          set_busy_line busy;;
          if is_null dc || is_null rst || is_null busy
          then printf "Error: Failed to get GPIO lines\n" [];;
               display_cleanup;; mret false
          else
            failed ← any_negative
              [ gpiod_line_request_output dc "dc" 0;
                gpiod_line_request_output rst "rst" 1;
                gpiod_line_request_input busy "busy" ];
            if failed : bool
            then printf "Error: Failed to configure GPIO lines\n" [];;
                 display_cleanup;; mret false
            else
              epd_init_hardware;;
              set_initialized true;;
              printf "Display SDK initialized successfully\n" [];;
              mret true.

(** [data] is [None] for a null pointer.  The loop reads [data[i]] for
    every [i] below [EPD_ARRAY]; a shorter buffer is read past its end. *)
Definition display_image_raw (data : option (list Z)) (mode : display_mode_t)
    : M bool :=
  d ← get_drv;
  if negb (initialized d) || negb (bool_decide (is_Some data))
  then printf "Error: Display not initialized or invalid data\n" [];;
       mret false
  else
    frame ← lift data;
    (match mode with
     | DISPLAY_MODE_PARTIAL => epd_init_partial
     | DISPLAY_MODE_FULL => mret tt
     end);;
    epd_w21_write_cmd 0x24;;
    for_range 0 EPD_ARRAY
      (λ i (_ : unit), b ← lift (load frame i); epd_w21_write_data b) tt;;
    (match mode with
     | DISPLAY_MODE_FULL => epd_update
     | DISPLAY_MODE_PARTIAL => epd_update_partial
     end);;
    mret true.

(** The second component is the caller's buffer after the call. *)
Definition convert_png_to_1bit (filename : option string)
    (output_data : option (list Z)) : M (bool * option (list Z)) :=
  match filename, output_data with
  | Some fname, Some out =>
      img ← lodepng_decode32_file fname;
      let error := dec_error img in
      let width := dec_width img in
      let height := dec_height img in
      if negb (error =? 0)
      then printf "Error loading PNG: %s\n"
             [ArgStr (lodepng_error_text E error)];;
           mret (false, Some out)
      else if negb (width =? EPD_WIDTH) || negb (height =? EPD_HEIGHT)
      then printf "Error: PNG dimensions (%dx%d) don't match display (%dx%d)\n"
             [ArgInt width; ArgInt height; ArgInt EPD_WIDTH; ArgInt EPD_HEIGHT];;
           free (dec_ptr img);;
           mret (false, Some out)
      else
        out0 ← lift (memset out 0 EPD_ARRAY);
        out1 ← lift (pack_pixels width height (dec_data img) out0);
        free (dec_ptr img);;
        mret (true, Some out1)
  | _, _ => mret (false, output_data)
  end.

Definition display_image_png (filename : option string) (mode : display_mode_t)
    : M bool :=
  d ← get_drv;
  if negb (initialized d) || negb (bool_decide (is_Some filename))
  then printf "Error: Display not initialized or invalid filename\n" [];;
       mret false
  else
    image_data ← uninit_array EPD_ARRAY;
    '(ok, image_data) ← convert_png_to_1bit filename (Some image_data);
    if negb ok
    then printf "Error: Failed to convert PNG to 1-bit data\n" [];;
         mret false
    else display_image_raw image_data mode.

Definition display_clear : M bool :=
  d ← get_drv;
  if negb (initialized d)
  then printf "Error: Display not initialized\n" [];; mret false
  else
    white_data ← uninit_array EPD_ARRAY;
    white_data ← lift (memset white_data 0xFF EPD_ARRAY);
    display_image_raw (Some white_data) DISPLAY_MODE_FULL.

Definition display_sleep : M unit :=
  d ← get_drv;
  if negb (initialized d) then mret tt
  else
    epd_w21_write_cmd 0x10;;
    epd_w21_write_data 0x01;;
    delay_ms 100.

(** [mem] holds the caller's [uint32_t] objects; the result is [mem]
    after the call.  The two pointers may be equal. *)
Definition display_get_dimensions (width height : Z) (mem : gmap Z Z)
    : M (gmap Z Z) :=
  mem ← (if negb (is_null width)
         then store32 width EPD_WIDTH mem else mret mem);
  mem ← (if negb (is_null height)
         then store32 height EPD_HEIGHT mem else mret mem);
  mret mem.

End Driver.

(** ** Vocabulary of the statements *)

(** What the panel receives: each transfer is a command when the
    data/command line was last driven low, a data byte otherwise.  [dch] is
    the handle of that line, [dc] its level before the first event. *)
Inductive Packet := Cmd (b : Z) | Data (b : Z).

Fixpoint packets (dch : Z) (dc : Z) (t : list Event) : list Packet :=
  match t with
  | [] => []
  | EvLineSetValue l v :: t' => packets dch (if l =? dch then v else dc) t'
  | EvSpiTransfer _ tr :: t' =>
      (if dc =? 0 then Cmd (tx tr) else Data (tx tr)) :: packets dch dc t'
  | _ :: t' => packets dch dc t'
  end.

(** [m], run in [w], returns [a], leaves the driver's variables alone and
    sends the packets [ps], whatever the level of the line was before. *)
Definition sends {A} (m : M A) (w : World) (a : A) (ps : list Packet) : Prop :=
  ∃ ev, m w = Ok a {| drv := drv w; log := ev ++ log w |} ∧
        ∀ dc, packets (dc_line (drv w)) dc (rev ev) = ps.

(** The same from every world whose driver variables are [d]. *)
Definition sends_from {A} (d : Driver) (m : M A) (a : A) (ps : list Packet)
    : Prop :=
  ∀ w, drv w = d → sends m w a ps.

(** The state that a successful [display_init] leaves. *)
Definition Ready (d : Driver) : Prop :=
  initialized d = true ∧ 0 ≤ spi_fd d ∧ chip d ≠ NULL ∧
  dc_line d ≠ NULL ∧ rst_line d ≠ NULL ∧ busy_line d ≠ NULL.

(** A decoded image that [convert_png_to_1bit] accepts: lodepng hands
    back four bytes per pixel. *)
Definition valid_image (img : Decoded) : Prop :=
  dec_error img = 0 ∧
  dec_width img = EPD_WIDTH ∧ dec_height img = EPD_HEIGHT ∧
  Z.of_nat (length (dec_data img)) = 4 * (EPD_WIDTH * EPD_HEIGHT) ∧
  Forall (λ b, 0 ≤ b < 256) (dec_data img).

(** Channel [c] (0 red, 1 green, 2 blue, 3 alpha) of pixel number [p]. *)
Definition sample (image_data : list Z) (p c : Z) : Z :=
  default 0 (load image_data (4 * p + c)).

(** The bit the loop body computes for pixel number [p]. *)
Definition px_white (image_data : list Z) (p : Z) : bool :=
  bit_of (gray_of (sample image_data p 0) (sample image_data p 1)
                  (sample image_data p 2)) =? 1.

(** Bit of pixel number [p] in a packed frame: byte [p / 8], most
    significant bit first. *)
Definition frame_bit (frame : list Z) (p : Z) : bool :=
  match load frame (p `div` 8) with
  | Some v => Z.testbit v (7 - p `mod` 8)
  | None => false
  end.

(** Pixel number of column [x] in row [y], rows one after the other. *)
Definition row_major (x y : Z) : Z := y * EPD_WIDTH + x.

(** The byte that holds the eight bits [f 0 .. f 7], [f 0] on top. *)
Definition pack8 (f : Z → bool) : Z :=
  foldr (λ k acc, acc + (if f k then 2 ^ (7 - k) else 0)) 0
        [0; 1; 2; 3; 4; 5; 6; 7].

(** The frame that packs [white]: 4000 bytes. *)
Definition packed (white : Z → bool) : list Z :=
  map (λ i, pack8 (λ k, white (8 * Z.of_nat i + k)))
      (seq 0 (Z.to_nat EPD_ARRAY)).

(** The state of the loops of [convert_png_to_1bit] when the pixels
    below [k] are done, [out0] being the caller's buffer. *)
Definition packed_upto (image_data out0 : list Z) (k : Z) (out : list Z)
    : Prop :=
  length out = length out0 ∧
  drop (Z.to_nat EPD_ARRAY) out = drop (Z.to_nat EPD_ARRAY) out0 ∧
  (∀ i v, (i < Z.to_nat EPD_ARRAY)%nat → out !! i = Some v → 0 ≤ v < 256) ∧
  (∀ p, 0 ≤ p < EPD_WIDTH * EPD_HEIGHT →
        frame_bit out p = (p <? k) && px_white image_data p).

(** What the panel is to receive for one frame in one refresh mode. *)
Definition frame_packets (mode : display_mode_t) (frame : list Z)
    : list Packet :=
  (match mode with
   | DISPLAY_MODE_PARTIAL => [Cmd 0x3C; Data 0x80]
   | DISPLAY_MODE_FULL => []
   end)
  ++ [Cmd 0x24]
  ++ map Data (take (Z.to_nat EPD_ARRAY) frame)
  ++ [Cmd 0x22;
      Data (match mode with
            | DISPLAY_MODE_FULL => 0xF7
            | DISPLAY_MODE_PARTIAL => 0xFF
            end);
      Cmd 0x20].

(** The register sequence of [epd_init_hardware]. *)
Definition init_packets : list Packet :=
  [Cmd 0x12;
   Cmd 0x01; Data 249; Data 0; Data 0;
   Cmd 0x11; Data 1;
   Cmd 0x44; Data 0; Data 15;
   Cmd 0x45; Data 249; Data 0; Data 0; Data 0;
   Cmd 0x3C; Data 5;
   Cmd 0x21; Data 0; Data 0x80;
   Cmd 0x18; Data 0x80;
   Cmd 0x4E; Data 0;
   Cmd 0x4F; Data 249; Data 0].

(** What [display_cleanup] leaves in the log, oldest event first, from
    the driver variables [d]. *)
Definition release_trace (d : Driver) : list Event :=
  (if 0 <=? spi_fd d then [EvClose (spi_fd d)] else [])
  ++ (if is_null (dc_line d) then [] else [EvLineRelease (dc_line d)])
  ++ (if is_null (rst_line d) then [] else [EvLineRelease (rst_line d)])
  ++ (if is_null (busy_line d) then [] else [EvLineRelease (busy_line d)])
  ++ (if is_null (chip d) then [] else [EvChipClose (chip d)])
  ++ [EvPrintf "Display SDK cleaned up\n" []].

(** The driver variables after [display_cleanup]: a descriptor that was
    already negative keeps its value. *)
Definition driver_released (d : Driver) : Driver :=
  {| spi_fd := if 0 <=? spi_fd d then -1 else spi_fd d;
     chip := NULL; dc_line := NULL; rst_line := NULL; busy_line := NULL;
     initialized := false |}.

(** What [lcd_chkstatus] leaves in the log, oldest event first, when it
    read the busy line as 1 [n] times, slept after each of these reads, and
    then read [last]: the warning follows when the counter reached 1000.
    With no busy line nothing is read. *)
Definition poll_trace (line : Z) (n : nat) (last : Z) : list Event :=
  if is_null line then []
  else
    concat (replicate n [EvLineGetValue line 1; EvUsleep 10000])
    ++ [EvLineGetValue line last]
    ++ (if 1000 <=? Z.of_nat n
        then [EvPrintf "Warning: Display busy timeout\n" []]
        else []).

(** Events that put nothing on the bus and leave the lines alone. *)
Definition silent (e : Event) : Prop :=
  match e with
  | EvSpiTransfer _ _ | EvLineSetValue _ _ => False
  | _ => True
  end.

(** The caller's objects after [v] is stored through [p] when [p] is not
    null. *)
Definition stored_unless_null (p v : Z) (mem : gmap Z Z) : gmap Z Z :=
  if is_null p then mem else <[p := v]> mem.

(** The value a run returned, if it did. *)
Definition returned {A} (r : Res A) : option A :=
  match r with
  | Ok a _ => Some a
  | Fault => None
  end.

(** The unweighted mean of three samples as the specification words it,
    a rational number; the code computes [gray_of] instead. *)
Definition mean3 (r g b : Z) : Q := Qmake (r + g + b) 3.

(** ** Concrete worlds

    An environment in which every call succeeds and the panel is never
    busy, one in which the busy line is stuck at 1, and some images. *)

Definition env_ok (img : Decoded) : Env :=
  {| open_result := λ _ _, 3;
     ioctl_result := λ _, 0;
     chip_open_result := λ _, 0x1000;
     get_line_result := λ _ pin, 0x2000 + pin;
     request_result := λ _, 0;
     set_value_result := λ _, 0;
     get_value_result := λ _, 0;
     decode_result := λ _ _, img;
     lodepng_error_text := λ _, "unknown error"%string;
     uninit_byte := λ _ _, 0xAA |}.

Definition env_stuck (img : Decoded) : Env :=
  {| open_result := λ _ _, 3;
     ioctl_result := λ _, 0;
     chip_open_result := λ _, 0x1000;
     get_line_result := λ _ pin, 0x2000 + pin;
     request_result := λ _, 0;
     set_value_result := λ _, 0;
     get_value_result := λ _, 1;
     decode_result := λ _ _, img;
     lodepng_error_text := λ _, "unknown error"%string;
     uninit_byte := λ _ _, 0xAA |}.

(** A 128x250 image: pixel (0,0) is opaque [(r, g, b)], every other pixel
    is opaque black. *)
Definition image_corner (r g b : Z) : Decoded :=
  {| dec_error := 0; dec_width := 128; dec_height := 250; dec_ptr := 0x5000;
     dec_data := [r; g; b; 255]
                 ++ concat (replicate (Z.to_nat 31999) [0; 0; 0; 255]) |}.

Definition image_white_corner : Decoded := image_corner 255 255 255.
Definition image_grey_corner : Decoded := image_corner 128 128 128.
Definition image_pale_corner : Decoded := image_corner 129 128 128.

(** A caller's buffer of 4000 bytes. *)
Definition buffer_4000 : list Z := replicate (Z.to_nat 4000) 0xAA.

(** A white 100x100 image. *)
Definition image_100 : Decoded :=
  {| dec_error := 0; dec_width := 100; dec_height := 100; dec_ptr := 0x5000;
     dec_data := replicate (Z.to_nat 40000) 255 |}.

(** The driver as [display_init] leaves it under [env_ok]. *)
Definition world_ready : World :=
  {| drv := {| spi_fd := 3; chip := 0x1000; dc_line := 0x2007;
               rst_line := 0x200D; busy_line := 0x2009;
               initialized := true |};
     log := [] |}.

(** The world after one [display_init] from the initial state. *)
Definition world_after_init (E : Env) : World :=
  match display_init E world_boot with
  | Ok _ w => w
  | Fault => world_boot
  end.

(** ** Vocabulary of the further properties *)

(** [m] leaves the driver's six variables as they were whenever it
    returns. *)
Definition keeps_drv {A} (m : M A) : Prop :=
  ∀ w a w1, m w = Ok a w1 → drv w1 = drv w.

(** The flag is set only when the descriptor and all handles are there. *)
Definition consistent (d : Driver) : Prop :=
  initialized d = true → Ready d.


(** An environment in which every acquisition succeeds. *)
Definition healthy (E : Env) : Prop :=
  (∀ t path, 0 ≤ open_result E t path) ∧
  (∀ t, 0 ≤ ioctl_result E t) ∧
  (∀ t, chip_open_result E t ≠ NULL) ∧
  (∀ t pin, 0 < pin → get_line_result E t pin ≠ NULL) ∧
  (∀ t, 0 ≤ request_result E t).



(** What lodepng hands back for a file that is not a PNG. *)
Definition image_undecodable : Decoded :=
  {| dec_error := 28; dec_width := 0; dec_height := 0; dec_ptr := NULL;
     dec_data := [] |}.

(** Two white 128x250 images, one opaque and one fully transparent. *)
Definition image_white : Decoded :=
  {| dec_error := 0; dec_width := 128; dec_height := 250; dec_ptr := 0x5000;
     dec_data := replicate (Z.to_nat 128000) 255 |}.

Definition image_white_clear : Decoded :=
  {| dec_error := 0; dec_width := 128; dec_height := 250; dec_ptr := 0x6000;
     dec_data := concat (replicate (Z.to_nat 32000) [255; 255; 255; 0]) |}.

(** A frame of ten bytes. *)
Definition frame_short : list Z := replicate 10 0x00.

(** * Properties *)

(** [lia] is to see through division and remainder by a constant. *)
Ltac Zify.zify_post_hook ::= Z.to_euclidean_division_equations.

(** ** Buffers and bits *)

Lemma load_is_Some (buf : list Z) (i : Z) :
  0 ≤ i < Z.of_nat (length buf) → ∃ v, load buf i = Some v.
Proof.
  intros Hi. unfold load.
  destruct (Z.ltb_spec i 0) as [|_]; [lia|].
  apply lookup_lt_is_Some. lia.
Qed.

Lemma load_insert (buf : list Z) (i j v : Z) :
  0 ≤ i < Z.of_nat (length buf) → 0 ≤ j →
  load (<[Z.to_nat i := v]> buf) j = if decide (i = j) then Some v else load buf j.
Proof.
  intros Hi Hj. unfold load.
  destruct (Z.ltb_spec j 0) as [|_]; [lia|].
  destruct (decide (i = j)) as [->|Hne].
  - apply list_lookup_insert_eq. lia.
  - apply list_lookup_insert_ne. lia.
Qed.

Lemma testbit_one_shiftl (a n : Z) :
  0 ≤ a → 0 ≤ n → Z.testbit (1 ≪ a) n = bool_decide (n = a).
Proof.
  intros Ha Hn. rewrite Z.shiftl_1_l, Z.pow2_bits_eqb by done.
  destruct (Z.eqb_spec a n); case_bool_decide; done || lia.
Qed.

Lemma testbit_set_bit (old a n : Z) :
  0 ≤ a < 8 → 0 ≤ n < 8 →
  Z.testbit (to_uchar (Z.lor old (1 ≪ a))) n =
  Z.testbit old n || bool_decide (n = a).
Proof.
  intros Ha Hn. unfold to_uchar.
  change 256 with (2 ^ 8).
  rewrite Z.mod_pow2_bits_low, Z.lor_spec, testbit_one_shiftl by lia.
  done.
Qed.

Lemma to_unsigned_small (z : Z) : 0 ≤ z < 4294967296 → to_unsigned z = z.
Proof. intros Hz. unfold to_unsigned. by apply Z.mod_small. Qed.

Lemma to_uchar_range (z : Z) : 0 ≤ to_uchar z < 256.
Proof. unfold to_uchar. apply Z.mod_pos_bound. lia. Qed.

Lemma testbit_byte_high (v n : Z) :
  0 ≤ v < 256 → 8 ≤ n → Z.testbit v n = false.
Proof.
  intros Hv Hn. destruct (decide (v = 0)) as [->|Hv0].
  - apply Z.bits_0.
  - apply Z.bits_above_log2; [lia|].
    assert (Z.log2 v < 8); [|lia].
    apply Z.log2_lt_pow2; lia.
Qed.

(** A byte is the sum of its eight bits. *)
Lemma byte_is_pack8 (v : Z) (f : Z → bool) :
  0 ≤ v < 256 →
  (∀ k, 0 ≤ k < 8 → Z.testbit v (7 - k) = f k) →
  v = pack8 f.
Proof.
  intros Hv Hbits.
  assert (Hp : 0 ≤ pack8 f < 256).
  { unfold pack8; simpl.
    destruct (f 0), (f 1), (f 2), (f 3), (f 4), (f 5), (f 6), (f 7);
      simpl; lia. }
  apply Z.bits_inj'. intros n Hn.
  destruct (Z.lt_ge_cases n 8) as [Hlt|Hge].
  - replace n with (7 - (7 - n)) at 1 by lia.
    rewrite Hbits by lia.
    assert (Hcase : n = 0 ∨ n = 1 ∨ n = 2 ∨ n = 3 ∨ n = 4 ∨ n = 5 ∨ n = 6 ∨ n = 7)
      by lia.
    unfold pack8.
    destruct Hcase as [->|[->|[->|[->|[->|[->|[->| ->]]]]]]];
      match goal with
      | |- f ?e = _ => let e' := eval vm_compute in e in change e with e'
      end;
      cbn [foldr];
      destruct (f 0), (f 1), (f 2), (f 3), (f 4), (f 5), (f 6), (f 7);
      reflexivity.
  - rewrite !testbit_byte_high; done.
Qed.

(** ** Counted loops *)

Lemma for_up_option_inv {S : Type} (P : Z → S → Prop)
    (body : Z → S → option S) (n : nat) (i : Z) (s : S) :
  P i s →
  (∀ j s1, i ≤ j < i + Z.of_nat n → P j s1 →
           ∃ s2, body j s1 = Some s2 ∧ P (j + 1) s2) →
  ∃ s', for_up n i body s = Some s' ∧ P (i + Z.of_nat n) s'.
Proof.
  revert i s. induction n as [|n IH]; intros i s Hs Hbody.
  - exists s. split; [done|]. by replace (i + Z.of_nat 0) with i by lia.
  - destruct (Hbody i s) as (s1 & Hb & Hs1); [lia|done|].
    destruct (IH (i + 1) s1) as (s2 & Hloop & Hs2); [done| |].
    { intros j s3 Hj. apply Hbody. lia. }
    exists s2. cbn [for_up]. rewrite Hb. split; [exact Hloop|].
    by replace (i + Z.of_nat (Datatypes.S n)) with (i + 1 + Z.of_nat n) by lia.
Qed.

(** ** The codec *)

Lemma pixel_step_spec (image_data out0 out : list Z) (x y : Z) :
  Z.of_nat (length image_data) = 4 * (EPD_WIDTH * EPD_HEIGHT) →
  EPD_ARRAY ≤ Z.of_nat (length out0) →
  0 ≤ x < EPD_WIDTH → 0 ≤ y < EPD_HEIGHT →
  packed_upto image_data out0 (row_major x y) out →
  ∃ out', pixel_step EPD_WIDTH image_data y x out = Some out' ∧
          packed_upto image_data out0 (row_major x y + 1) out'.
Proof.
  unfold row_major, packed_upto.
  change EPD_ARRAY with 4000. change EPD_WIDTH with 128.
  change EPD_HEIGHT with 250.
  intros Hlen Hout0 Hx Hy (Hl & Hdrop & Hrange & Hbits).
  set (p := y * 128 + x) in *.
  assert (Hp : 0 ≤ p < 32000) by lia.
  destruct (load_is_Some image_data (4 * p + 0)) as [r Hr]; [lia|].
  destruct (load_is_Some image_data (4 * p + 1)) as [g Hg]; [lia|].
  destruct (load_is_Some image_data (4 * p + 2)) as [b Hb]; [lia|].
  assert (Hwhite : px_white image_data p = (bit_of (gray_of r g b) =? 1)).
  { unfold px_white, sample. by rewrite Hr, Hg, Hb. }
  unfold pixel_step. fold p.
  assert (Hu : to_unsigned p = p) by (apply to_unsigned_small; lia).
  rewrite Hu.
  replace (to_unsigned (p * 4)) with (4 * p + 0)
    by (rewrite to_unsigned_small; lia).
  replace (to_unsigned (4 * p + 0 + 1)) with (4 * p + 1)
    by (rewrite to_unsigned_small; lia).
  replace (to_unsigned (4 * p + 0 + 2)) with (4 * p + 2)
    by (rewrite to_unsigned_small; lia).
  rewrite Hr; cbn [mbind option_bind]. rewrite Hg; cbn [mbind option_bind].
  rewrite Hb; cbn [mbind option_bind].
  assert (Hpos : to_unsigned (7 - p `mod` 8) = 7 - p `mod` 8).
  { apply to_unsigned_small. lia. }
  rewrite Hpos.
  assert (Hbit : bit_of (gray_of r g b) = 0 ∨ bit_of (gray_of r g b) = 1).
  { unfold bit_of. destruct (128 <? gray_of r g b); auto. }
  destruct Hbit as [Hbit|Hbit]; rewrite Hbit in *; cbn [Z.eqb] in *.
  - (* black pixel: the buffer is left as it is *)
    exists out. do 4 (split; [done|]).
    intros q Hq. rewrite Hbits by done.
    destruct (decide (q = p)) as [->|Hne].
    + rewrite Hwhite. by rewrite !andb_false_r.
    + f_equal. destruct (Z.ltb_spec q p), (Z.ltb_spec q (p + 1)); done || lia.
  - (* white pixel: one bit of byte p / 8 is set *)
    destruct (load_is_Some out (p `div` 8)) as [old Hold]; [lia|].
    rewrite Hold; cbn [mbind option_bind].
    unfold store. rewrite Hold.
    eexists. split; [reflexivity|].
    split; [by rewrite length_insert|].
    split; [rewrite drop_insert_lt; [done|lia]|].
    split.
    + intros i v Hi. destruct (decide (i = Z.to_nat (p `div` 8))) as [->|Hne].
      * rewrite list_lookup_insert_eq by lia. intros [= <-].
        apply to_uchar_range.
      * rewrite list_lookup_insert_ne by done. by apply Hrange.
    + intros q Hq. unfold frame_bit.
      rewrite load_insert by lia.
      specialize (Hbits q Hq). unfold frame_bit in Hbits.
      destruct (decide (p `div` 8 = q `div` 8)) as [Heq|Hne].
      * rewrite testbit_set_bit by lia.
        rewrite <- Heq, Hold in Hbits. rewrite Hbits.
        destruct (decide (q = p)) as [->|Hqp].
        -- rewrite Hwhite, Z.ltb_irrefl. rewrite bool_decide_eq_true_2 by done.
           destruct (Z.ltb_spec p (p + 1)); [done|lia].
        -- rewrite bool_decide_eq_false_2 by lia. rewrite orb_false_r.
           f_equal.
           destruct (Z.ltb_spec q p), (Z.ltb_spec q (p + 1)); done || lia.
      * rewrite Hbits. f_equal.
        destruct (Z.ltb_spec q p), (Z.ltb_spec q (p + 1)); done || lia.
Qed.

Lemma row_spec (image_data out0 out : list Z) (y : Z) :
  Z.of_nat (length image_data) = 4 * (EPD_WIDTH * EPD_HEIGHT) →
  EPD_ARRAY ≤ Z.of_nat (length out0) →
  0 ≤ y < EPD_HEIGHT →
  packed_upto image_data out0 (row_major 0 y) out →
  ∃ out', for_range 0 EPD_WIDTH (pixel_step EPD_WIDTH image_data y) out
            = Some out' ∧
          packed_upto image_data out0 (row_major 0 (y + 1)) out'.
Proof.
  intros Hlen Hout0 Hy Hinv. unfold for_range.
  destruct (for_up_option_inv
              (λ x o, packed_upto image_data out0 (row_major x y) o)
              (pixel_step EPD_WIDTH image_data y)
              (Z.to_nat (EPD_WIDTH - 0)) 0 out) as (out' & Hrun & Hinv');
    [done| |].
  - intros x o Hx Ho.
    destruct (pixel_step_spec image_data out0 o x y) as (o' & Hstep & Ho');
      [done|done| |done|done|].
    { change EPD_WIDTH with 128 in *. lia. }
    exists o'. split; [done|].
    by replace (row_major (x + 1) y) with (row_major x y + 1)
      by (unfold row_major; lia).
  - exists out'. split; [done|].
    by replace (row_major 0 (y + 1))
      with (row_major (0 + Z.of_nat (Z.to_nat (EPD_WIDTH - 0))) y)
      by (unfold row_major; change EPD_WIDTH with 128; lia).
Qed.

Lemma pack_pixels_spec (image_data out0 out : list Z) :
  Z.of_nat (length image_data) = 4 * (EPD_WIDTH * EPD_HEIGHT) →
  EPD_ARRAY ≤ Z.of_nat (length out0) →
  packed_upto image_data out0 0 out →
  ∃ out', pack_pixels EPD_WIDTH EPD_HEIGHT image_data out = Some out' ∧
          packed_upto image_data out0 (EPD_WIDTH * EPD_HEIGHT) out'.
Proof.
  intros Hlen Hout0 Hinv. unfold pack_pixels, for_range.
  destruct (for_up_option_inv
              (λ y o, packed_upto image_data out0 (row_major 0 y) o)
              (λ y o, for_range 0 EPD_WIDTH (pixel_step EPD_WIDTH image_data y) o)
              (Z.to_nat (EPD_HEIGHT - 0)) 0 out) as (out' & Hrun & Hinv');
    [done| |].
  - intros y o Hy Ho. apply row_spec; [done|done| |done].
    change EPD_HEIGHT with 250 in *. lia.
  - exists out'. split; [done|].
    by replace (EPD_WIDTH * EPD_HEIGHT)
      with (row_major 0 (0 + Z.of_nat (Z.to_nat (EPD_HEIGHT - 0))))
      by (unfold row_major; change EPD_HEIGHT with 250; lia).
Qed.

Lemma memset_spec (buf : list Z) (c n : Z) :
  0 ≤ n ≤ Z.of_nat (length buf) →
  memset buf c n =
    Some (replicate (Z.to_nat n) (to_uchar c) ++ drop (Z.to_nat n) buf).
Proof.
  intros Hn. unfold memset.
  destruct (Z.leb_spec n (Z.of_nat (length buf))); [done|lia].
Qed.

Lemma memset_full (buf : list Z) (c n : Z) :
  0 ≤ n → Z.of_nat (length buf) = n →
  memset buf c n = Some (replicate (Z.to_nat n) (to_uchar c)).
Proof.
  intros Hn Hlen. rewrite memset_spec by lia.
  rewrite drop_ge by lia. by rewrite app_nil_r.
Qed.

Lemma packed_upto_zeroed (image_data out : list Z) :
  EPD_ARRAY ≤ Z.of_nat (length out) →
  packed_upto image_data out 0
    (replicate (Z.to_nat EPD_ARRAY) (to_uchar 0) ++ drop (Z.to_nat EPD_ARRAY) out).
Proof.
  change EPD_ARRAY with 4000. intros Hlen. unfold packed_upto.
  change EPD_ARRAY with 4000. change (to_uchar 0) with 0.
  split; [|split; [|split]].
  - rewrite length_app, length_replicate, length_drop. lia.
  - by rewrite drop_app_length' by (by rewrite length_replicate).
  - intros i v Hi. rewrite lookup_app_l by (rewrite length_replicate; lia).
    rewrite lookup_replicate. intros [-> _]. lia.
  - intros p Hp. unfold frame_bit, load.
    change (EPD_WIDTH * EPD_HEIGHT) with 32000 in Hp.
    destruct (Z.ltb_spec (p `div` 8) 0); [lia|].
    rewrite lookup_app_l by (rewrite length_replicate; lia).
    rewrite lookup_replicate_2 by lia. rewrite Z.bits_0.
    destruct (Z.ltb_spec p 0); [lia|done].
Qed.

Lemma pack8_ext (f g : Z → bool) :
  (∀ k, 0 ≤ k < 8 → f k = g k) → pack8 f = pack8 g.
Proof.
  intros Hfg. unfold pack8. cbn [foldr]. by rewrite !Hfg by lia.
Qed.

Lemma length_packed (white : Z → bool) :
  length (packed white) = Z.to_nat EPD_ARRAY.
Proof. unfold packed. by rewrite length_map, length_seq. Qed.

Lemma lookup_packed (white : Z → bool) (i : nat) :
  (i < Z.to_nat EPD_ARRAY)%nat →
  packed white !! i = Some (pack8 (λ k, white (8 * Z.of_nat i + k))).
Proof.
  intros Hi. unfold packed. rewrite list_lookup_fmap.
  by rewrite lookup_seq_lt.
Qed.

(** When the loops are over, the first 4000 bytes are the packed frame. *)
Lemma packed_upto_done (image_data out0 out : list Z) :
  EPD_ARRAY ≤ Z.of_nat (length out0) →
  packed_upto image_data out0 (EPD_WIDTH * EPD_HEIGHT) out →
  out = packed (px_white image_data) ++ drop (Z.to_nat EPD_ARRAY) out0.
Proof.
  intros Hlen (Hl & Hdrop & Hrange & Hbits).
  rewrite <- Hdrop. rewrite <- (take_drop (Z.to_nat EPD_ARRAY) out) at 1.
  f_equal. apply list_eq. intros i.
  change EPD_ARRAY with 4000 in *.
  change (EPD_WIDTH * EPD_HEIGHT) with 32000 in *.
  destruct (decide (i < 4000)%nat) as [Hi|Hi].
  - rewrite lookup_take_lt by lia. rewrite lookup_packed by done.
    destruct (lookup_lt_is_Some_2 out i) as [v Hv]; [lia|].
    rewrite Hv. f_equal. apply byte_is_pack8; [by eapply Hrange|].
    intros k Hk.
    specialize (Hbits (8 * Z.of_nat i + k)). unfold frame_bit, load in Hbits.
    replace ((8 * Z.of_nat i + k) `div` 8) with (Z.of_nat i) in Hbits by lia.
    replace ((8 * Z.of_nat i + k) `mod` 8) with k in Hbits by lia.
    destruct (Z.ltb_spec (Z.of_nat i) 0); [lia|].
    rewrite Nat2Z.id, Hv in Hbits. rewrite Hbits by lia.
    destruct (Z.ltb_spec (8 * Z.of_nat i + k) 32000); [done|lia].
  - rewrite lookup_take_ge by lia. symmetry. apply lookup_ge_None.
    rewrite length_packed. change EPD_ARRAY with 4000. lia.
Qed.

Ltac run_monad :=
  cbv [mbind M_bind mret M_ret fault lift emit now get_drv put_drv printf
       perror free usleep c_close lodepng_decode32_file uninit_array
       set_spi_fd set_chip set_dc_line set_rst_line set_busy_line
       set_initialized] in *;
  cbn [drv log spi_fd chip dc_line rst_line busy_line initialized] in *.

Lemma convert_accepts (E : Env) (w : World) (fname : string) (out : list Z) :
  let img := decode_result E (length (log w)) fname in
  valid_image img →
  EPD_ARRAY ≤ Z.of_nat (length out) →
  convert_png_to_1bit E (Some fname) (Some out) w =
    Ok (true,
        Some (packed (px_white (dec_data img)) ++ drop (Z.to_nat EPD_ARRAY) out))
       {| drv := drv w;
          log := EvFree (dec_ptr img) :: EvDecode fname :: log w |}.
Proof.
  intros img (Herr & Hw & Hh & Hlen & _) Hout.
  unfold convert_png_to_1bit. run_monad. fold img.
  rewrite Herr, Hw, Hh. rewrite !Z.eqb_refl. cbn [negb orb].
  rewrite memset_spec by (change EPD_ARRAY with 4000 in *; lia).
  destruct (pack_pixels_spec (dec_data img) out
              (replicate (Z.to_nat EPD_ARRAY) (to_uchar 0)
                 ++ drop (Z.to_nat EPD_ARRAY) out))
    as (out' & Hrun & Hinv); [done|done|by apply packed_upto_zeroed|].
  rewrite Hrun.
  by rewrite (packed_upto_done _ _ _ Hout Hinv).
Qed.

Lemma convert_rejects (E : Env) (w : World) (fname : string) (out : list Z) :
  let img := decode_result E (length (log w)) fname in
  dec_error img = 0 →
  dec_width img ≠ EPD_WIDTH ∨ dec_height img ≠ EPD_HEIGHT →
  convert_png_to_1bit E (Some fname) (Some out) w =
    Ok (false, Some out)
       {| drv := drv w;
          log := EvFree (dec_ptr img)
                 :: EvPrintf
                      "Error: PNG dimensions (%dx%d) don't match display (%dx%d)\n"
                      [ArgInt (dec_width img); ArgInt (dec_height img);
                       ArgInt EPD_WIDTH; ArgInt EPD_HEIGHT]
                 :: EvDecode fname :: log w |}.
Proof.
  intros img Herr Hdim.
  unfold convert_png_to_1bit. run_monad. fold img.
  rewrite Herr. cbn [Z.eqb negb].
  assert (Hbad : negb (dec_width img =? EPD_WIDTH)
                 || negb (dec_height img =? EPD_HEIGHT) = true).
  { destruct (Z.eqb_spec (dec_width img) EPD_WIDTH),
             (Z.eqb_spec (dec_height img) EPD_HEIGHT); try done.
    by destruct Hdim. }
  by rewrite Hbad.
Qed.

(** ** The busy wait *)

Lemma gpio_read_busy (E : Env) (w : World) :
  gpio_read E BUSY_PIN w =
    if is_null (busy_line (drv w)) then Ok (-1) w
    else
      let level := get_value_result E (length (log w)) in
      Ok level {| drv := drv w;
                  log := EvLineGetValue (busy_line (drv w)) level :: log w |}.
Proof.
  unfold gpio_read, gpiod_line_get_value. run_monad.
  rewrite Z.eqb_refl. cbn [andb].
  by destruct (is_null (busy_line (drv w))).
Qed.

Lemma delay_ms_10 (w : World) :
  delay_ms 10 w = Ok tt {| drv := drv w; log := EvUsleep 10000 :: log w |}.
Proof. reflexivity. Qed.

(** The loop from any counter not above 1000: [n] more rounds, the
    counter ends at [wd + n], and only a read other than 1 stops it
    before 1000. *)
Lemma chkstatus_loop_spec (E : Env) (wd : Z) (w : World) :
  wd ≤ 1000 →
  is_null (busy_line (drv w)) = false →
  ∃ (n : nat) (last : Z),
    wd + Z.of_nat n ≤ 1000 ∧
    (last ≠ 1 ∨ wd + Z.of_nat n = 1000) ∧
    chkstatus_loop E wd w =
      Ok (wd + Z.of_nat n)
         {| drv := drv w;
            log := rev (concat (replicate n [EvLineGetValue (busy_line (drv w)) 1;
                                             EvUsleep 10000])
                        ++ [EvLineGetValue (busy_line (drv w)) last])
                   ++ log w |}.
Proof.
  funelim (chkstatus_loop E wd w); intros Hwd Hline;
    rewrite ?gpio_read_busy, ?delay_ms_10, ?Hline in *; cbn zeta in *;
    repeat match goal with
           | H : Ok _ _ = Fault |- _ => discriminate H
           | H : Ok _ _ = Ok _ _ |- _ => injection H as ? ?; subst
           end.
  - (* the line read other than 1, or the counter is at 1000 *)
    exists 0%nat, (get_value_result E (length (log w))).
    split; [lia|]. split; [lia|].
    rewrite Z.add_0_r. reflexivity.
  - (* one more round *)
    match goal with
    | IH : _ → _ → ∃ _ _, _ |- _ =>
        destruct IH as (n & last & Hn & Hlast & Hrun); [lia|done|]
    end.
    exists (Datatypes.S n), last.
    split; [lia|]. split; [lia|].
    rewrite Hrun. cbn [drv log].
    f_equal; [lia|]. f_equal.
    match goal with H : _ = 1 ∧ _ |- _ => rewrite (proj1 H) end.
    cbn [replicate concat]. rewrite <- !app_assoc. cbn [app].
    cbn [rev]. by rewrite <- !app_assoc.
Qed.

Lemma chkstatus_loop_no_line (E : Env) (wd : Z) (w : World) :
  is_null (busy_line (drv w)) = true →
  chkstatus_loop E wd w = Ok wd w.
Proof.
  intros Hline.
  funelim (chkstatus_loop E wd w);
    rewrite ?gpio_read_busy, ?delay_ms_10, ?Hline in *; cbn zeta in *;
    repeat match goal with
           | H : Ok _ _ = Fault |- _ => discriminate H
           | H : Ok _ _ = Ok _ _ |- _ => injection H as ? ?; subst
           end.
  - reflexivity.
  - match goal with H : -1 = 1 ∧ _ |- _ => destruct H as [[=] _] end.
Qed.

Lemma lcd_chkstatus_spec (E : Env) (w : World) :
  ∃ (n : nat) (last : Z),
    (n ≤ 1000)%nat ∧
    (last ≠ 1 ∨ n = 1000%nat) ∧
    lcd_chkstatus E w =
      Ok tt {| drv := drv w;
               log := rev (poll_trace (busy_line (drv w)) n last) ++ log w |}.
Proof.
  unfold lcd_chkstatus, poll_trace.
  destruct (is_null (busy_line (drv w))) eqn:Hline.
  - exists 0%nat, (-1). split; [lia|]. split; [left; lia|].
    run_monad. rewrite chkstatus_loop_no_line by done.
    cbn. by destruct w.
  - destruct (chkstatus_loop_spec E 0 w) as (n & last & Hn & Hlast & Hrun);
      [lia|done|].
    exists n, last. split; [lia|]. split; [lia|].
    run_monad. rewrite Hrun. rewrite Z.add_0_l.
    destruct (Z.leb_spec 1000 (Z.of_nat n)).
    + f_equal. f_equal. rewrite !app_assoc.
      rewrite (rev_app_distr _ [EvPrintf _ _]). reflexivity.
    + by rewrite app_nil_r.
Qed.

(** ** What reaches the panel *)

Lemma packets_app (dch dc : Z) (t1 t2 : list Event) :
  ∃ dc', packets dch dc (t1 ++ t2) = packets dch dc t1 ++ packets dch dc' t2.
Proof.
  revert dc. induction t1 as [|e t1 IH]; intros dc.
  - by exists dc.
  - destruct e; cbn [app packets];
      try (by apply IH).
    destruct (IH dc) as [dc' ->]. by exists dc'.
Qed.

Lemma packets_silent (dch dc : Z) (t : list Event) :
  Forall silent t → packets dch dc t = [].
Proof.
  induction 1 as [|e t He _ IH]; [done|].
  destruct e; cbn [packets]; done.
Qed.

Lemma poll_trace_silent (line : Z) (n : nat) (last : Z) :
  Forall silent (poll_trace line n last).
Proof.
  unfold poll_trace. destruct (is_null line); [constructor|].
  apply Forall_app. split.
  - induction n as [|n IH]; [constructor|].
    cbn [replicate concat app]. by repeat constructor.
  - destruct (1000 <=? Z.of_nat n); by repeat constructor.
Qed.

Lemma sends_ret {A} (a : A) (w : World) : sends (mret a) w a [].
Proof. exists []. split; [by destruct w|done]. Qed.

Lemma sends_bind {A B} (m : M A) (k : A → M B) (w : World)
    (a : A) (b : B) (ps1 ps2 : list Packet) :
  sends m w a ps1 →
  (∀ w1, drv w1 = drv w → sends (k a) w1 b ps2) →
  sends (m ≫= k) w b (ps1 ++ ps2).
Proof.
  intros (ev1 & Hm & Hps1) Hk.
  destruct (Hk {| drv := drv w; log := ev1 ++ log w |} eq_refl)
    as (ev2 & Hka & Hps2).
  cbn [drv log] in *.
  exists (ev2 ++ ev1). split.
  - unfold mbind, M_bind. rewrite Hm, Hka. by rewrite app_assoc.
  - intros dc. rewrite rev_app_distr.
    destruct (packets_app (dc_line (drv w)) dc (rev ev1) (rev ev2)) as [dc' ->].
    by rewrite Hps1, Hps2.
Qed.

Lemma sends_silent {A} (m : M A) (w : World) (a : A) (t : list Event) :
  m w = Ok a {| drv := drv w; log := rev t ++ log w |} →
  Forall silent t →
  sends m w a [].
Proof.
  intros Hm Ht. exists (rev t). split; [done|].
  intros dc. rewrite rev_involutive. by apply packets_silent.
Qed.

Lemma sends_lcd_chkstatus (E : Env) (w : World) :
  sends (lcd_chkstatus E) w tt [].
Proof.
  destruct (lcd_chkstatus_spec E w) as (n & last & _ & _ & Hrun).
  eapply sends_silent; [exact Hrun|]. apply poll_trace_silent.
Qed.

Lemma sends_delay_ms (ms : Z) (w : World) : sends (delay_ms ms) w tt [].
Proof.
  apply (sends_silent _ _ _ [EvUsleep (to_unsigned (ms * 1000))]);
    [done|by repeat constructor].
Qed.

(** Splits the log of a goal [∃ ev, Ok _ (.. e :: .. :: log w) = Ok _ (.. ev ++ log w) ∧ _]. *)
Ltac log_prefix :=
  first [ exists []; split; [reflexivity|]
        | eexists [_]; split; [reflexivity|]
        | eexists [_; _]; split; [reflexivity|]
        | eexists [_; _; _]; split; [reflexivity|]
        | eexists [_; _; _; _]; split; [reflexivity|]
        | eexists [_; _; _; _; _]; split; [reflexivity|] ].

(** A command byte: the line is driven low, then one transfer. *)
Lemma sends_write_cmd (E : Env) (cmd : Z) (w : World) :
  0 ≤ spi_fd (drv w) → dc_line (drv w) ≠ NULL →
  sends (epd_w21_write_cmd E cmd) w tt [Cmd cmd].
Proof.
  intros Hfd Hdc. unfold sends, epd_w21_write_cmd, spi_delay, gpio_write,
    gpiod_line_set_value, ioctl_spi_message.
  run_monad. change (DC_PIN =? DC_PIN) with true. cbn iota.
  destruct (Z.ltb_spec (spi_fd (drv w)) 0); [lia|].
  unfold is_null. destruct (Z.eqb_spec (dc_line (drv w)) NULL); [done|].
  destruct (set_value_result E _ <? 0); cbn [length];
    destruct (ioctl_result E _ <? 0); cbn [drv log];
    log_prefix; intros dc; cbn [rev app packets]; by rewrite Z.eqb_refl.
Qed.

(** A data byte: the line is driven high, then one transfer. *)
Lemma sends_write_data (E : Env) (data : Z) (w : World) :
  0 ≤ spi_fd (drv w) → dc_line (drv w) ≠ NULL →
  sends (epd_w21_write_data E data) w tt [Data data].
Proof.
  intros Hfd Hdc. unfold sends, epd_w21_write_data, spi_delay, gpio_write,
    gpiod_line_set_value, ioctl_spi_message.
  run_monad. change (DC_PIN =? DC_PIN) with true. cbn iota.
  destruct (Z.ltb_spec (spi_fd (drv w)) 0); [lia|].
  unfold is_null. destruct (Z.eqb_spec (dc_line (drv w)) NULL); [done|].
  destruct (set_value_result E _ <? 0); cbn [length];
    destruct (ioctl_result E _ <? 0); cbn [drv log];
    log_prefix; intros dc; cbn [rev app packets]; by rewrite Z.eqb_refl.
Qed.

Lemma sends_from_ret {A} (d : Driver) (a : A) : sends_from d (mret a) a [].
Proof. intros w _. apply sends_ret. Qed.

Lemma sends_from_bind {A B} (d : Driver) (m : M A) (k : A → M B)
    (a : A) (b : B) (ps ps1 ps2 : list Packet) :
  sends_from d m a ps1 →
  sends_from d (k a) b ps2 →
  ps = ps1 ++ ps2 →
  sends_from d (m ≫= k) b ps.
Proof.
  intros Hm Hk -> w Hw. eapply sends_bind; [by apply Hm|].
  intros w1 Hw1. apply Hk. congruence.
Qed.

Lemma sends_from_write_cmd (E : Env) (d : Driver) (cmd : Z) :
  0 ≤ spi_fd d → dc_line d ≠ NULL →
  sends_from d (epd_w21_write_cmd E cmd) tt [Cmd cmd].
Proof. intros Hfd Hdc w <-. by apply sends_write_cmd. Qed.

Lemma sends_from_write_data (E : Env) (d : Driver) (data : Z) :
  0 ≤ spi_fd d → dc_line d ≠ NULL →
  sends_from d (epd_w21_write_data E data) tt [Data data].
Proof. intros Hfd Hdc w <-. by apply sends_write_data. Qed.

Lemma sends_from_lcd_chkstatus (E : Env) (d : Driver) :
  sends_from d (lcd_chkstatus E) tt [].
Proof. intros w _. apply sends_lcd_chkstatus. Qed.

Lemma sends_from_delay_ms (d : Driver) (ms : Z) :
  sends_from d (delay_ms ms) tt [].
Proof. intros w _. apply sends_delay_ms. Qed.

(** Driving the reset line puts nothing on the bus. *)
Lemma sends_from_gpio_write_rst (E : Env) (d : Driver) (value : Z) :
  sends_from d (gpio_write E RST_PIN value) tt [].
Proof.
  intros w <-. unfold sends, gpio_write, gpiod_line_set_value. run_monad.
  change (RST_PIN =? DC_PIN) with false.
  change (RST_PIN =? RST_PIN) with true. cbn iota.
  destruct (is_null (rst_line (drv w))).
  - exists []. split; [by destruct w|done].
  - destruct (set_value_result E _ <? 0); cbn [drv log]; log_prefix; done.
Qed.

Create HintDb sends.

#[local] Hint Resolve sends_from_write_cmd sends_from_write_data
  sends_from_lcd_chkstatus sends_from_ret : sends.

(** One statement of a sequence: the first call by a lemma of the
    database, the list of packets settled when the sequence is over. *)
Ltac sends_seq_by tac :=
  repeat (eapply sends_from_bind; [solve [tac]| |]);
  [solve [tac] | try reflexivity ..].

Ltac sends_seq := sends_seq_by ltac:(eauto with sends).

Lemma sends_from_init_partial (E : Env) (d : Driver) :
  0 ≤ spi_fd d → dc_line d ≠ NULL →
  sends_from d (epd_init_partial E) tt [Cmd 0x3C; Data 0x80].
Proof. intros Hfd Hdc. unfold epd_init_partial. sends_seq. Qed.

Lemma sends_from_update (E : Env) (d : Driver) :
  0 ≤ spi_fd d → dc_line d ≠ NULL →
  sends_from d (epd_update E) tt [Cmd 0x22; Data 0xF7; Cmd 0x20].
Proof. intros Hfd Hdc. unfold epd_update. sends_seq. Qed.

Lemma sends_from_update_partial (E : Env) (d : Driver) :
  0 ≤ spi_fd d → dc_line d ≠ NULL →
  sends_from d (epd_update_partial E) tt [Cmd 0x22; Data 0xFF; Cmd 0x20].
Proof. intros Hfd Hdc. unfold epd_update_partial. sends_seq. Qed.

Lemma sends_from_init_hardware (E : Env) (d : Driver) :
  0 ≤ spi_fd d → dc_line d ≠ NULL →
  sends_from d (epd_init_hardware E) tt init_packets.
Proof.
  intros Hfd Hdc. unfold epd_init_hardware.
  sends_seq_by ltac:(first [ apply sends_from_gpio_write_rst
                           | apply sends_from_delay_ms
                           | eauto with sends ]).
Qed.

(** The loop over the frame sends its bytes in order. *)
Lemma sends_from_frame_loop (E : Env) (d : Driver) (frame : list Z)
    (n : nat) (i : Z) :
  0 ≤ spi_fd d → dc_line d ≠ NULL →
  0 ≤ i → i + Z.of_nat n ≤ Z.of_nat (length frame) →
  sends_from d
    (for_up n i (λ i (_ : unit), b ← lift (load frame i); epd_w21_write_data E b) tt)
    tt (map Data (take n (drop (Z.to_nat i) frame))).
Proof.
  intros Hfd Hdc. revert i. induction n as [|n IH]; intros i Hi Hlen.
  - apply sends_from_ret.
  - destruct (load_is_Some frame i) as [b Hb]; [lia|].
    cbn [for_up]. rewrite Hb. cbn [lift].
    eapply sends_from_bind.
    + eapply sends_from_bind;
        [apply sends_from_ret|by apply sends_from_write_data|reflexivity].
    + apply IH; lia.
    + unfold load in Hb. destruct (Z.ltb_spec i 0); [lia|].
      rewrite (drop_S _ _ _ Hb). cbn [take map app].
      by replace (Z.to_nat (i + 1)) with (Datatypes.S (Z.to_nat i)) by lia.
Qed.

Lemma sends_from_here {A} (m : M A) (w : World) (a : A) (ps : list Packet) :
  sends_from (drv w) m a ps → sends m w a ps.
Proof. intros H. by apply H. Qed.

Lemma sends_get_drv {A} (k : Driver → M A) (w : World) (a : A)
    (ps : list Packet) :
  sends (k (drv w)) w a ps → sends (get_drv ≫= k) w a ps.
Proof. done. Qed.

Lemma sends_from_frame (E : Env) (d : Driver) (frame : list Z) :
  0 ≤ spi_fd d → dc_line d ≠ NULL →
  EPD_ARRAY ≤ Z.of_nat (length frame) →
  sends_from d
    (for_range 0 EPD_ARRAY
       (λ i (_ : unit), b ← lift (load frame i); epd_w21_write_data E b) tt)
    tt (map Data (take (Z.to_nat EPD_ARRAY) frame)).
Proof.
  intros Hfd Hdc Hlen. unfold for_range.
  rewrite Z.sub_0_r.
  apply (sends_from_frame_loop E d frame (Z.to_nat EPD_ARRAY) 0); try done;
    change EPD_ARRAY with 4000 in *; lia.
Qed.

#[local] Hint Resolve sends_from_init_partial sends_from_update
  sends_from_update_partial sends_from_frame : sends.

(** ** Display operations on a ready driver *)

Lemma display_image_raw_ready (E : Env) (d : Driver) (frame : list Z)
    (mode : display_mode_t) :
  Ready d →
  EPD_ARRAY ≤ Z.of_nat (length frame) →
  sends_from d (display_image_raw E (Some frame) mode) true
    (frame_packets mode frame).
Proof.
  intros (Hinit & Hfd & _ & Hdc & _) Hlen w <-.
  unfold display_image_raw. apply sends_get_drv.
  rewrite Hinit. cbn [negb orb lift].
  apply sends_from_here. unfold frame_packets.
  destruct mode; sends_seq.
Qed.

Lemma display_clear_unfold (E : Env) (w : World) :
  initialized (drv w) = true →
  display_clear E w =
    display_image_raw E (Some (replicate (Z.to_nat EPD_ARRAY) 0xFF))
      DISPLAY_MODE_FULL w.
Proof.
  intros Hinit. unfold display_clear. run_monad. rewrite Hinit. cbn [negb].
  rewrite memset_full; [done|done|].
  by rewrite length_map, length_seq, Z2Nat.id.
Qed.

(** ** Teardown *)

Lemma is_null_true (p : Z) : is_null p = true → p = NULL.
Proof. unfold is_null. by intros ?%Z.eqb_eq. Qed.

Lemma display_cleanup_spec (w : World) :
  display_cleanup w =
    Ok tt {| drv := driver_released (drv w);
             log := rev (release_trace (drv w)) ++ log w |}.
Proof.
  unfold display_cleanup, release_trace, driver_released,
    gpiod_line_release, gpiod_chip_close.
  run_monad.
  destruct (0 <=? spi_fd (drv w));
    destruct (is_null (dc_line (drv w))) eqn:Hdc;
    destruct (is_null (rst_line (drv w))) eqn:Hrst;
    destruct (is_null (busy_line (drv w))) eqn:Hbusy;
    destruct (is_null (chip (drv w))) eqn:Hchip;
    cbn [drv log spi_fd chip dc_line rst_line busy_line initialized negb];
    rewrite ?Hdc, ?Hrst, ?Hbusy, ?Hchip;
    cbn [drv log spi_fd chip dc_line rst_line busy_line initialized negb];
    rewrite ?Hdc, ?Hrst, ?Hbusy, ?Hchip;
    cbn [drv log spi_fd chip dc_line rst_line busy_line initialized negb];
    rewrite ?Hdc, ?Hrst, ?Hbusy, ?Hchip;
    cbn [drv log spi_fd chip dc_line rst_line busy_line initialized negb];
    rewrite ?Hdc, ?Hrst, ?Hbusy, ?Hchip;
    cbn [drv log spi_fd chip dc_line rst_line busy_line initialized negb];
    repeat match goal with
           | H : is_null _ = true |- _ => apply is_null_true in H; rewrite ?H
           end;
    reflexivity.
Qed.

(** ** Initialisation *)

Lemma display_init_again (E : Env) (w : World) :
  initialized (drv w) = true → display_init E w = Ok true w.
Proof.
  intros Hinit. unfold display_init. cbv [mbind M_bind get_drv].
  by rewrite Hinit.
Qed.

(** Case analysis on the next test or call of a run that has returned. *)
Ltac step_run H :=
  match type of H with
  | context [if ?c then _ else _] => destruct c eqn:?
  | context [match ?r with Ok _ _ => _ | Fault => _ end] => destruct r eqn:?
  end;
  try discriminate H;
  cbn [drv log spi_fd chip dc_line rst_line busy_line initialized] in H.

(** A call that returned [true] went through every acquisition and left
    the flag set. *)
Lemma display_init_true (E : Env) (w w1 : World) :
  display_init E w = Ok true w1 →
  initialized (drv w1) = true ∧
  (initialized (drv w) = true → w1 = w) ∧
  (initialized (drv w) = false →
     0 ≤ spi_fd (drv w1) ∧ chip (drv w1) ≠ NULL ∧ dc_line (drv w1) ≠ NULL ∧
     rst_line (drv w1) ≠ NULL ∧ busy_line (drv w1) ≠ NULL).
Proof.
  intros Hrun. unfold display_init in Hrun.
  cbv [mbind M_bind get_drv] in Hrun.
  destruct (initialized (drv w)) eqn:Hinit.
  { injection Hrun as <-. by repeat split. }
  unfold c_open, gpiod_chip_open_by_name, gpiod_chip_get_line,
    any_negative, ioctl, gpiod_line_request_output,
    gpiod_line_request_input in Hrun.
  cbn [foldr] in Hrun. run_monad.
  repeat step_run Hrun.
  injection Hrun as <-.
  repeat match goal with
         | H : (_ <? 0) = false |- _ => apply Z.ltb_ge in H
         | H : orb _ _ = false |- _ => apply orb_false_elim in H as [? ?]
         | H : is_null _ = false |- _ => apply Z.eqb_neq in H
         end.
  match goal with
  | H : epd_init_hardware E ?w' = Ok _ _ |- _ =>
      destruct (sends_from_init_hardware E (drv w')) with (w := w')
        as (ev & Hev & _); [done|done|done|];
      rewrite Hev in H; injection H as <- <-
  end.
  cbn [drv initialized spi_fd chip dc_line rst_line busy_line].
  done.
Qed.

(** ** The concrete worlds *)

Example init_reaches_world_ready :
  drv (world_after_init (env_ok image_100)) = drv world_ready ∧
  returned (display_init (env_ok image_100) world_boot) = Some true.
Proof. split; vm_compute; reflexivity. Qed.

Example stuck_busy_line_polls :
  match lcd_chkstatus (env_stuck image_100) world_ready with
  | Ok _ w => length (log w) = 2002%nat ∧
              head (log w) = Some (EvPrintf "Warning: Display busy timeout\n" [])
  | Fault => False
  end.
Proof. vm_compute. split; reflexivity. Qed.

Example stuck_busy_line_clear :
  returned (display_clear (env_stuck image_100) world_ready) = Some true.
Proof. vm_compute. reflexivity. Qed.

(** ** Frames and images, pixel by pixel *)

Lemma testbit_pack8 (f : Z → bool) (k : Z) :
  0 ≤ k < 8 → Z.testbit (pack8 f) (7 - k) = f k.
Proof.
  intros Hk.
  assert (Hcase : k = 0 ∨ k = 1 ∨ k = 2 ∨ k = 3 ∨ k = 4 ∨ k = 5 ∨ k = 6 ∨ k = 7)
    by lia.
  unfold pack8. cbn [foldr].
  destruct Hcase as [->|[->|[->|[->|[->|[->|[->| ->]]]]]]];
    destruct (f 0), (f 1), (f 2), (f 3), (f 4), (f 5), (f 6), (f 7);
    reflexivity.
Qed.

Lemma frame_bit_packed (white : Z → bool) (rest : list Z) (p : Z) :
  0 ≤ p < EPD_WIDTH * EPD_HEIGHT →
  frame_bit (packed white ++ rest) p = white p.
Proof.
  change (EPD_WIDTH * EPD_HEIGHT) with 32000. intros Hp.
  unfold frame_bit, load.
  destruct (Z.ltb_spec (p `div` 8) 0); [lia|].
  assert (Hi : (Z.to_nat (p `div` 8) < Z.to_nat EPD_ARRAY)%nat)
    by (change EPD_ARRAY with 4000; lia).
  rewrite lookup_app_l by (by rewrite length_packed).
  rewrite lookup_packed by done.
  rewrite testbit_pack8 by lia.
  f_equal. lia.
Qed.

Lemma sample_range (image_data : list Z) (p c : Z) :
  Forall (λ b, 0 ≤ b < 256) image_data →
  0 ≤ sample image_data p c < 256.
Proof.
  intros Hall. unfold sample, load.
  destruct (4 * p + c <? 0); [cbn; lia|].
  destruct (image_data !! Z.to_nat (4 * p + c)) as [v|] eqn:Hv; [|cbn; lia].
  cbn. by eapply (Forall_lookup_1 _ _ _ _ Hall).
Qed.

(** The test of the loop body, on samples that are bytes: the quotient
    of the sum by 3 is above 128, that is, the sum is at least 387. *)
Lemma bit_of_gray (r g b : Z) :
  0 ≤ r < 256 → 0 ≤ g < 256 → 0 ≤ b < 256 →
  ((bit_of (gray_of r g b) =? 1) = true ↔ 128 < (r + g + b) `div` 3) ∧
  (128 < (r + g + b) `div` 3 ↔ 387 ≤ r + g + b).
Proof.
  intros Hr Hg Hb. unfold bit_of, gray_of, to_uchar.
  rewrite Z.quot_div_nonneg by lia.
  rewrite (Z.mod_small _ 256) by lia.
  destruct (Z.ltb_spec 128 ((r + g + b) `div` 3)); cbn; split; split;
    intros; done || lia.
Qed.

Lemma lookup_concat_replicate {A} (l : list A) (n q c : nat) :
  (q < n)%nat → (c < length l)%nat →
  concat (replicate n l) !! (q * length l + c)%nat = l !! c.
Proof.
  revert q. induction n as [|n IH]; intros q Hq Hc; [lia|].
  cbn [replicate concat]. destruct q as [|q].
  - by rewrite lookup_app_l.
  - rewrite lookup_app_r by lia.
    replace (Datatypes.S q * length l + c - length l)%nat
      with (q * length l + c)%nat by lia.
    apply IH; lia.
Qed.

Lemma valid_image_corner (r g b : Z) :
  0 ≤ r < 256 → 0 ≤ g < 256 → 0 ≤ b < 256 →
  valid_image (image_corner r g b).
Proof.
  intros Hr Hg Hb.
  split; [reflexivity|]. split; [reflexivity|]. split; [reflexivity|].
  split; [vm_compute; reflexivity|].
  cbn [dec_data image_corner]. apply Forall_app. split.
  - repeat constructor; lia.
  - apply Forall_concat, Forall_replicate. repeat constructor; lia.
Qed.

Lemma sample_corner_first (r g b : Z) :
  sample (dec_data (image_corner r g b)) 0 0 = r ∧
  sample (dec_data (image_corner r g b)) 0 1 = g ∧
  sample (dec_data (image_corner r g b)) 0 2 = b.
Proof. done. Qed.

Lemma sample_corner_rest (r g b p c : Z) :
  1 ≤ p < 32000 → 0 ≤ c < 3 →
  sample (dec_data (image_corner r g b)) p c = 0.
Proof.
  intros Hp Hc. unfold sample, load. cbn [dec_data image_corner].
  destruct (Z.ltb_spec (4 * p + c) 0); [lia|].
  rewrite lookup_app_r by (cbn [length]; lia). cbn [length].
  replace (Z.to_nat (4 * p + c) - 4)%nat
    with (Z.to_nat (p - 1) * 4 + Z.to_nat c)%nat by lia.
  pose proof (lookup_concat_replicate [0; 0; 0; 255] (Z.to_nat 31999)
                (Z.to_nat (p - 1)) (Z.to_nat c)) as Hlk.
  cbn [length] in Hlk. rewrite Hlk by lia. clear Hlk.
  assert (Hcase : c = 0 ∨ c = 1 ∨ c = 2) by lia.
  by destruct Hcase as [->|[->| ->]].
Qed.

(** In a corner image only pixel (0,0) can be white. *)
Lemma px_white_corner (r g b x y : Z) :
  0 ≤ x < EPD_WIDTH → 0 ≤ y < EPD_HEIGHT →
  px_white (dec_data (image_corner r g b)) (row_major x y) =
    bool_decide (x = 0 ∧ y = 0) && (bit_of (gray_of r g b) =? 1).
Proof.
  change EPD_WIDTH with 128. change EPD_HEIGHT with 250.
  intros Hx Hy. unfold px_white, row_major. change EPD_WIDTH with 128.
  case_bool_decide as Hxy.
  - destruct Hxy as [-> ->]. change (0 * 128 + 0) with 0.
    by destruct (sample_corner_first r g b) as (-> & -> & ->).
  - rewrite !sample_corner_rest by lia. done.
Qed.

(** ** Sleep, clear and the composed PNG path *)

Lemma world_ready_is_Ready : Ready (drv world_ready).
Proof. repeat split; vm_compute; discriminate. Qed.

Lemma display_sleep_run (E : Env) (w : World) :
  Ready (drv w) →
  ∃ ev, display_sleep E w =
          Ok tt {| drv := drv w; log := EvUsleep 100000 :: ev ++ log w |} ∧
        ∀ dc, packets (dc_line (drv w)) dc (rev ev) = [Cmd 0x10; Data 0x01].
Proof.
  intros (Hinit & Hfd & _ & Hdc & _).
  destruct (sends_write_cmd E 0x10 w Hfd Hdc) as (ev1 & Hrun1 & Hps1).
  set (w1 := {| drv := drv w; log := ev1 ++ log w |}) in *.
  destruct (sends_write_data E 0x01 w1 Hfd Hdc) as (ev2 & Hrun2 & Hps2).
  exists (ev2 ++ ev1). split.
  - unfold display_sleep. cbv [mbind M_bind get_drv].
    rewrite Hinit. cbn [negb]. rewrite Hrun1. fold w1. rewrite Hrun2.
    cbn [drv log w1]. by rewrite <- app_assoc.
  - intros dc. rewrite rev_app_distr.
    destruct (packets_app (dc_line (drv w)) dc (rev ev1) (rev ev2)) as [dc' ->].
    rewrite Hps1. cbn [drv w1] in Hps2. by rewrite Hps2.
Qed.

Lemma display_clear_ready (E : Env) (w : World) :
  Ready (drv w) →
  sends (display_clear E) w true
    (frame_packets DISPLAY_MODE_FULL (replicate (Z.to_nat EPD_ARRAY) 0xFF)).
Proof.
  intros Hready. unfold sends.
  rewrite display_clear_unfold by apply Hready.
  apply (display_image_raw_ready E (drv w)); [done| |done].
  rewrite length_replicate. change EPD_ARRAY with 4000. lia.
Qed.

(** Decoding, converting and sending a valid image. *)
Lemma display_image_png_ready (E : Env) (w : World) (fname : string)
    (mode : display_mode_t) :
  Ready (drv w) →
  valid_image (decode_result E (length (log w)) fname) →
  sends (display_image_png E (Some fname) mode) w true
    (frame_packets mode
       (packed (px_white (dec_data (decode_result E (length (log w)) fname))))).
Proof.
  intros Hready Hvalid.
  set (img := decode_result E (length (log w)) fname) in *.
  set (garbage := map (uninit_byte E (length (log w)))
                      (seq 0 (Z.to_nat EPD_ARRAY))).
  assert (Hlen : Z.of_nat (length garbage) = EPD_ARRAY).
  { unfold garbage. by rewrite length_map, length_seq, Z2Nat.id. }
  pose proof (convert_accepts E w fname garbage Hvalid) as Hconv.
  fold img in Hconv. rewrite drop_ge, app_nil_r in Hconv by lia.
  specialize (Hconv ltac:(lia)).
  set (w1 := {| drv := drv w;
                log := EvFree (dec_ptr img) :: EvDecode fname :: log w |}) in *.
  destruct (display_image_raw_ready E (drv w)
              (packed (px_white (dec_data img))) mode Hready) with (w := w1)
    as (ev & Hrun & Hps); [|done|].
  { rewrite length_packed. change EPD_ARRAY with 4000. lia. }
  exists (ev ++ [EvFree (dec_ptr img); EvDecode fname]). split.
  - unfold display_image_png. cbv [mbind M_bind get_drv uninit_array now mret M_ret].
    destruct Hready as (-> & _). cbn [negb orb bool_decide decide_rel].
    rewrite bool_decide_eq_true_2 by done. cbn [negb].
    fold garbage. rewrite Hconv. cbn [negb]. fold w1.
    rewrite Hrun. cbn [drv log w1]. by rewrite <- app_assoc.
  - intros dc. rewrite rev_app_distr. cbn [rev app].
    cbn [packets]. cbn [drv w1] in Hps. apply Hps.
Qed.

Lemma elem_of_guarded {A} (c : bool) (x e : A) :
  e ∈ (if c then [x] else []) ↔ e = x ∧ c = true.
Proof.
  destruct c.
  - rewrite list_elem_of_singleton. split; [by intros ->|by intros [-> _]].
  - split; [by intros ?%elem_of_nil|by intros [_ [=]]].
Qed.

Lemma elem_of_guarded_neg {A} (c : bool) (x e : A) :
  e ∈ (if c then [] else [x]) ↔ e = x ∧ c = false.
Proof.
  destruct c.
  - split; [by intros ?%elem_of_nil|by intros [_ [=]]].
  - rewrite list_elem_of_singleton. split; [by intros ->|by intros [-> _]].
Qed.

(** * The claims *)

(** C1.  For every decoded RGBA image of exactly 128x250 pixels (and a
    caller's buffer of at least [EPD_ARRAY] bytes), [convert_png_to_1bit]
    returns [true] and fills exactly 4000 bytes of the buffer, leaving any
    byte past them alone: the bit of pixel (x, y) is bit [7 - p mod 8] of
    byte [p / 8] for [p = y * 128 + x], row after row, most significant bit
    first.  In particular, when only pixel (0,0) is white, the first byte is
    0x80 and the 3999 others are 0x00. *)
Theorem convert_png_to_1bit_packs_frame (E : Env) (w : World)
    (fname : string) (out : list Z) (img : Decoded) :
  decode_result E (length (log w)) fname = img →
  valid_image img →
  EPD_ARRAY ≤ Z.of_nat (length out) →
  ∃ frame w',
    convert_png_to_1bit E (Some fname) (Some out) w =
      Ok (true, Some (frame ++ drop (Z.to_nat EPD_ARRAY) out)) w' ∧
    length frame = Z.to_nat EPD_ARRAY ∧
    EPD_ARRAY = 4000 ∧
    (∀ x y, 0 ≤ x < EPD_WIDTH → 0 ≤ y < EPD_HEIGHT →
       frame_bit frame (row_major x y) =
         px_white (dec_data img) (row_major x y)) ∧
    ((∀ x y, 0 ≤ x < EPD_WIDTH → 0 ≤ y < EPD_HEIGHT →
        px_white (dec_data img) (row_major x y) = bool_decide (x = 0 ∧ y = 0)) →
     frame = 0x80 :: replicate 3999 0x00).
Proof.
  intros <- Hvalid Hout.
  set (img := decode_result E (length (log w)) fname) in *.
  exists (packed (px_white (dec_data img))). eexists.
  split; [by apply convert_accepts|].
  split; [apply length_packed|]. split; [reflexivity|]. split.
  - intros x y Hx Hy.
    rewrite <- (app_nil_r (packed _)). apply frame_bit_packed.
    unfold row_major. change EPD_WIDTH with 128 in *.
    change EPD_HEIGHT with 250 in *. lia.
  - intros Hcorner. apply list_eq. intros i.
    destruct (decide (i < Z.to_nat EPD_ARRAY)%nat) as [Hi|Hi].
    + rewrite lookup_packed by done.
      change EPD_ARRAY with 4000 in Hi.
      assert (Hpx : ∀ k, 0 ≤ k < 8 →
                px_white (dec_data img) (8 * Z.of_nat i + k) =
                bool_decide (8 * Z.of_nat i + k = 0)).
      { intros k Hk.
        replace (8 * Z.of_nat i + k)
          with (row_major ((8 * Z.of_nat i + k) `mod` 128)
                          ((8 * Z.of_nat i + k) `div` 128))
          by (unfold row_major; change EPD_WIDTH with 128; lia).
        rewrite Hcorner
          by (change EPD_WIDTH with 128; change EPD_HEIGHT with 250; lia).
        apply bool_decide_ext. unfold row_major. change EPD_WIDTH with 128.
        lia. }
      rewrite (pack8_ext _ _ Hpx).
      destruct i as [|i].
      * reflexivity.
      * change ((128 :: replicate 3999 0) !! Datatypes.S i)
          with (replicate 3999 0 !! i).
        rewrite lookup_replicate_2 by lia.
        reflexivity.
    + rewrite (proj2 (lookup_ge_None _ _)) by (rewrite length_packed; lia).
      symmetry. apply lookup_ge_None. cbn [length].
      rewrite length_replicate. change EPD_ARRAY with 4000 in Hi. lia.
Qed.

Lemma convert_png_to_1bit_packs_frame_witness :
  valid_image image_white_corner ∧
  EPD_ARRAY ≤ Z.of_nat (length buffer_4000) ∧
  ∃ w', convert_png_to_1bit (env_ok image_white_corner) (Some "corner.png"%string)
          (Some buffer_4000) world_boot =
          Ok (true, Some (0x80 :: replicate 3999 0x00)) w'.
Proof.
  assert (Hvalid : valid_image image_white_corner)
    by (apply valid_image_corner; lia).
  assert (Hout : EPD_ARRAY ≤ Z.of_nat (length buffer_4000))
    by (vm_compute; discriminate).
  split; [exact Hvalid|]. split; [exact Hout|].
  destruct (convert_png_to_1bit_packs_frame (env_ok image_white_corner)
              world_boot "corner.png" buffer_4000 image_white_corner
              eq_refl Hvalid Hout)
    as (frame & w' & Hrun & _ & _ & _ & Hcorner).
  exists w'. rewrite Hrun. rewrite Hcorner.
  - reflexivity.
  - intros x y Hx Hy. unfold image_white_corner.
    rewrite px_white_corner by done. by rewrite andb_true_r.
Defined.

(** C2, as amended.  For every pixel of a valid 128x250 image the output
    bit is 1 exactly when the integer quotient of red + green + blue by 3
    (the mean rounded down, alpha ignored) is above 128, that is, when the
    sum is at least 387.  A pixel whose mean is exactly 128 is black, and a
    white pixel has a mean above 128. *)
Theorem convert_png_to_1bit_threshold (E : Env) (w : World)
    (fname : string) (out : list Z) (img : Decoded) :
  decode_result E (length (log w)) fname = img →
  valid_image img →
  EPD_ARRAY ≤ Z.of_nat (length out) →
  ∃ frame w',
    convert_png_to_1bit E (Some fname) (Some out) w =
      Ok (true, Some (frame ++ drop (Z.to_nat EPD_ARRAY) out)) w' ∧
    ∀ x y r g b, 0 ≤ x < EPD_WIDTH → 0 ≤ y < EPD_HEIGHT →
      r = sample (dec_data img) (row_major x y) 0 →
      g = sample (dec_data img) (row_major x y) 1 →
      b = sample (dec_data img) (row_major x y) 2 →
      (frame_bit frame (row_major x y) = true ↔ 128 < (r + g + b) `div` 3) ∧
      (frame_bit frame (row_major x y) = true ↔ 387 ≤ r + g + b) ∧
      (mean3 r g b == inject_Z 128 → frame_bit frame (row_major x y) = false)%Q ∧
      (frame_bit frame (row_major x y) = true → inject_Z 128 < mean3 r g b)%Q.
Proof.
  intros <- Hvalid Hout.
  set (img := decode_result E (length (log w)) fname) in *.
  exists (packed (px_white (dec_data img))). eexists.
  split; [by apply convert_accepts|].
  intros x y r g b Hx Hy Hr0 Hg0 Hb0.
  assert (Hbit : frame_bit (packed (px_white (dec_data img))) (row_major x y)
                 = px_white (dec_data img) (row_major x y)).
  { rewrite <- (app_nil_r (packed _)). apply frame_bit_packed.
    unfold row_major. change EPD_WIDTH with 128 in *.
    change EPD_HEIGHT with 250 in *. lia. }
  rewrite Hbit. unfold px_white. rewrite <- Hr0, <- Hg0, <- Hb0.
  destruct Hvalid as (_ & _ & _ & _ & Hbytes).
  pose proof (sample_range (dec_data img) (row_major x y) 0 Hbytes) as Hr.
  pose proof (sample_range (dec_data img) (row_major x y) 1 Hbytes) as Hg.
  pose proof (sample_range (dec_data img) (row_major x y) 2 Hbytes) as Hb.
  rewrite <- Hr0 in Hr. rewrite <- Hg0 in Hg. rewrite <- Hb0 in Hb.
  destruct (bit_of_gray r g b Hr Hg Hb) as [Hiff Hsum].
  split; [exact Hiff|]. split; [by rewrite Hiff|].
  unfold mean3, Qeq, Qlt. cbn [Qnum Qden inject_Z]. split.
  - intros Hmean. apply not_true_is_false. rewrite Hiff. lia.
  - rewrite Hiff. lia.
Qed.

Lemma convert_png_to_1bit_threshold_witness :
  valid_image image_grey_corner ∧
  EPD_ARRAY ≤ Z.of_nat (length buffer_4000) ∧
  ∃ frame w',
    convert_png_to_1bit (env_ok image_grey_corner) (Some "grey.png"%string)
      (Some buffer_4000) world_boot =
      Ok (true, Some (frame ++ drop (Z.to_nat EPD_ARRAY) buffer_4000)) w' ∧
    frame_bit frame (row_major 0 0) = false.
Proof.
  assert (Hvalid : valid_image image_grey_corner)
    by (apply valid_image_corner; lia).
  assert (Hout : EPD_ARRAY ≤ Z.of_nat (length buffer_4000))
    by (vm_compute; discriminate).
  split; [exact Hvalid|]. split; [exact Hout|].
  destruct (convert_png_to_1bit_threshold (env_ok image_grey_corner)
              world_boot "grey.png" buffer_4000 image_grey_corner
              eq_refl Hvalid Hout) as (frame & w' & Hrun & Hpx).
  exists frame, w'. split; [exact Hrun|].
  assert (Hx : 0 ≤ 0 < EPD_WIDTH) by (change EPD_WIDTH with 128; lia).
  assert (Hy : 0 ≤ 0 < EPD_HEIGHT) by (change EPD_HEIGHT with 250; lia).
  destruct (Hpx 0 0 128 128 128 Hx Hy eq_refl eq_refl eq_refl)
    as (_ & _ & Hmean & _).
  apply Hmean. reflexivity.
Defined.

(** C2 as stated fails: the pixel (129, 128, 128) has a mean above 128,
    385/3, and is packed as black. *)
Lemma convert_png_to_1bit_threshold_counterexample :
  valid_image image_pale_corner ∧
  sample (dec_data image_pale_corner) (row_major 0 0) 0 = 129 ∧
  sample (dec_data image_pale_corner) (row_major 0 0) 1 = 128 ∧
  sample (dec_data image_pale_corner) (row_major 0 0) 2 = 128 ∧
  (inject_Z 128 < mean3 129 128 128)%Q ∧
  ∃ frame w',
    convert_png_to_1bit (env_ok image_pale_corner) (Some "pale.png"%string)
      (Some buffer_4000) world_boot =
      Ok (true, Some frame) w' ∧
    frame_bit frame (row_major 0 0) = false.
Proof.
  assert (Hvalid : valid_image image_pale_corner)
    by (apply valid_image_corner; lia).
  split; [exact Hvalid|]. do 4 (split; [reflexivity|]).
  eexists. eexists. split.
  - apply (convert_accepts (env_ok image_pale_corner) world_boot "pale.png"
             buffer_4000); [exact Hvalid|].
    vm_compute. discriminate.
  - rewrite frame_bit_packed by done.
    cbn [decode_result env_ok]. unfold image_pale_corner.
    rewrite (px_white_corner 129 128 128 0 0) by done. reflexivity.
Qed.

(** C4.  For every successfully decoded image whose width or height is
    not 128x250, [convert_png_to_1bit] returns [false] after printing the
    dimension error and freeing the decoded image, and the caller's buffer
    is as it was. *)
Theorem convert_png_to_1bit_rejects_dimensions (E : Env) (w : World)
    (fname : string) (out : list Z) (img : Decoded) :
  decode_result E (length (log w)) fname = img →
  dec_error img = 0 →
  dec_width img ≠ EPD_WIDTH ∨ dec_height img ≠ EPD_HEIGHT →
  convert_png_to_1bit E (Some fname) (Some out) w =
    Ok (false, Some out)
       {| drv := drv w;
          log := EvFree (dec_ptr img)
                 :: EvPrintf
                      "Error: PNG dimensions (%dx%d) don't match display (%dx%d)\n"
                      [ArgInt (dec_width img); ArgInt (dec_height img);
                       ArgInt 128; ArgInt 250]
                 :: EvDecode fname :: log w |}.
Proof. intros <- Herr Hdim. by apply convert_rejects. Qed.

Lemma convert_png_to_1bit_rejects_dimensions_witness :
  dec_error image_100 = 0 ∧
  (dec_width image_100 ≠ EPD_WIDTH ∨ dec_height image_100 ≠ EPD_HEIGHT) ∧
  returned (convert_png_to_1bit (env_ok image_100) (Some "small.png"%string)
              (Some buffer_4000) world_boot)
    = Some (false, Some buffer_4000).
Proof.
  assert (Hdim : dec_width image_100 ≠ EPD_WIDTH ∨
                 dec_height image_100 ≠ EPD_HEIGHT)
    by (left; vm_compute; discriminate).
  split; [reflexivity|]. split; [exact Hdim|].
  by rewrite (convert_png_to_1bit_rejects_dimensions (env_ok image_100)
                world_boot "small.png" buffer_4000 image_100
                eq_refl eq_refl Hdim).
Defined.

(** C3, as amended.  [display_sleep] on a ready driver sends the deep-sleep
    command 0x10 with data 0x01 and waits 100 ms, and leaves the driver's
    variables as they were: the flag stays set, the sleep is not recorded.
    Afterwards [display_clear], [display_image_raw] with a frame and
    [display_image_png] with a valid image still return [true] and send
    their frame, and [display_init] returns [true] at once without sending
    anything. *)
Theorem display_sleep_keeps_driver_ready (E : Env) (w : World) :
  Ready (drv w) →
  ∃ w1,
    display_sleep E w = Ok tt w1 ∧
    drv w1 = drv w ∧
    Ready (drv w1) ∧
    sends (display_sleep E) w tt [Cmd 0x10; Data 0x01] ∧
    head (log w1) = Some (EvUsleep 100000) ∧
    sends (display_clear E) w1 true
      (frame_packets DISPLAY_MODE_FULL (replicate (Z.to_nat EPD_ARRAY) 0xFF)) ∧
    (∀ frame mode, EPD_ARRAY ≤ Z.of_nat (length frame) →
       sends (display_image_raw E (Some frame) mode) w1 true
         (frame_packets mode frame)) ∧
    (∀ fname mode img,
       decode_result E (length (log w1)) fname = img → valid_image img →
       sends (display_image_png E (Some fname) mode) w1 true
         (frame_packets mode (packed (px_white (dec_data img))))) ∧
    display_init E w1 = Ok true w1.
Proof.
  intros Hready.
  destruct (display_sleep_run E w Hready) as (ev & Hrun & Hps).
  eexists. split; [exact Hrun|]. cbn [drv log].
  split; [done|]. split; [done|]. split.
  { exists (EvUsleep 100000 :: ev). split; [done|].
    intros dc. cbn [rev]. 
    destruct (packets_app (dc_line (drv w)) dc (rev ev) [EvUsleep 100000])
      as [dc' ->].
    rewrite Hps. reflexivity. }
  split; [done|]. split; [by apply display_clear_ready|]. split.
  - intros frame mode Hlen.
    by apply (display_image_raw_ready E (drv w)).
  - split.
    + intros fname mode img <- Hvalid. by apply display_image_png_ready.
    + apply display_init_again. apply Hready.
Qed.

Lemma display_sleep_keeps_driver_ready_witness :
  Ready (drv world_ready) ∧
  ∃ w1, display_sleep (env_ok image_100) world_ready = Ok tt w1 ∧
        returned (display_clear (env_ok image_100) w1) = Some true.
Proof.
  split; [exact world_ready_is_Ready|].
  destruct (display_sleep_keeps_driver_ready (env_ok image_100) world_ready
              world_ready_is_Ready)
    as (w1 & Hrun & _ & _ & _ & _ & (ev & Hclear & _) & _ & _ & _).
  exists w1. split; [exact Hrun|]. exact (f_equal returned Hclear).
Defined.

(** C3 as stated fails: from the initial state, after [display_init] and
    [display_sleep], [display_clear] returns [true]. *)
Lemma display_sleep_counterexample :
  returned
    ((display_init (env_ok image_100) ≫= λ _,
      display_sleep (env_ok image_100) ≫= λ _,
      display_clear (env_ok image_100)) world_boot) = Some true.
Proof. vm_compute. reflexivity. Qed.

(** C5.  On a ready driver and a frame of at least 4000 bytes,
    [display_image_raw] in partial mode sends command 0x3C with data 0x80,
    then command 0x24 and the 4000 frame bytes; in full mode the first
    thing it sends is command 0x24, with no 0x3C before the frame. *)
Theorem display_image_raw_mode_sequence (E : Env) (w : World)
    (frame : list Z) :
  Ready (drv w) →
  EPD_ARRAY ≤ Z.of_nat (length frame) →
  sends (display_image_raw E (Some frame) DISPLAY_MODE_PARTIAL) w true
    (Cmd 0x3C :: Data 0x80 :: Cmd 0x24
     :: map Data (take 4000 frame) ++ [Cmd 0x22; Data 0xFF; Cmd 0x20]) ∧
  sends (display_image_raw E (Some frame) DISPLAY_MODE_FULL) w true
    (Cmd 0x24
     :: map Data (take 4000 frame) ++ [Cmd 0x22; Data 0xF7; Cmd 0x20]).
Proof.
  intros Hready Hlen. split.
  - by apply (display_image_raw_ready E (drv w) frame DISPLAY_MODE_PARTIAL).
  - by apply (display_image_raw_ready E (drv w) frame DISPLAY_MODE_FULL).
Qed.

Lemma display_image_raw_mode_sequence_witness :
  Ready (drv world_ready) ∧
  EPD_ARRAY ≤ Z.of_nat (length buffer_4000) ∧
  returned (display_image_raw (env_ok image_100) (Some buffer_4000)
              DISPLAY_MODE_PARTIAL world_ready) = Some true ∧
  returned (display_image_raw (env_ok image_100) (Some buffer_4000)
              DISPLAY_MODE_FULL world_ready) = Some true.
Proof.
  assert (Hlen : EPD_ARRAY ≤ Z.of_nat (length buffer_4000))
    by (vm_compute; discriminate).
  split; [exact world_ready_is_Ready|]. split; [exact Hlen|].
  destruct (display_image_raw_mode_sequence (env_ok image_100) world_ready
              buffer_4000 world_ready_is_Ready Hlen)
    as [(ev1 & Hpartial & _) (ev2 & Hfull & _)].
  split; [exact (f_equal returned Hpartial)|exact (f_equal returned Hfull)].
Defined.

(** C6.  [display_init] is idempotent: after a call that returned [true],
    a second call returns [true] at once and changes nothing, neither the
    descriptor and the handles nor the log, so nothing is acquired again. *)
Theorem display_init_idempotent (E E' : Env) (w w1 : World) :
  display_init E w = Ok true w1 →
  display_init E' w1 = Ok true w1.
Proof.
  intros Hrun. apply display_init_again.
  by destruct (display_init_true E w w1 Hrun) as [Hinit _].
Qed.

Lemma display_init_idempotent_witness :
  display_init (env_ok image_100) world_boot
    = Ok true (world_after_init (env_ok image_100)) ∧
  display_init (env_ok image_100) (world_after_init (env_ok image_100))
    = Ok true (world_after_init (env_ok image_100)).
Proof.
  assert (Hfirst : display_init (env_ok image_100) world_boot
                   = Ok true (world_after_init (env_ok image_100)))
    by (vm_compute; reflexivity).
  split; [exact Hfirst|].
  exact (display_init_idempotent _ _ _ _ Hfirst).
Defined.

(** C7.  [display_cleanup] returns from every state: it closes the
    descriptor exactly when it is not negative, releases each of the three
    lines and closes the chip exactly when the handle is not null, and
    leaves the descriptor negative, the handles null and the flag clear.
    Called again, it releases nothing. *)
Theorem display_cleanup_safe (w : World) :
  display_cleanup w =
    Ok tt {| drv := driver_released (drv w);
             log := rev (release_trace (drv w)) ++ log w |} ∧
  (∀ e, e ∈ release_trace (drv w) ↔
        e = EvClose (spi_fd (drv w)) ∧ 0 ≤ spi_fd (drv w) ∨
        e = EvLineRelease (dc_line (drv w)) ∧ dc_line (drv w) ≠ NULL ∨
        e = EvLineRelease (rst_line (drv w)) ∧ rst_line (drv w) ≠ NULL ∨
        e = EvLineRelease (busy_line (drv w)) ∧ busy_line (drv w) ≠ NULL ∨
        e = EvChipClose (chip (drv w)) ∧ chip (drv w) ≠ NULL ∨
        e = EvPrintf "Display SDK cleaned up\n" []) ∧
  spi_fd (driver_released (drv w)) < 0 ∧
  chip (driver_released (drv w)) = NULL ∧
  dc_line (driver_released (drv w)) = NULL ∧
  rst_line (driver_released (drv w)) = NULL ∧
  busy_line (driver_released (drv w)) = NULL ∧
  initialized (driver_released (drv w)) = false ∧
  release_trace (driver_released (drv w)) =
    [EvPrintf "Display SDK cleaned up\n" []].
Proof.
  split; [apply display_cleanup_spec|]. split.
  { intros e. unfold release_trace.
    rewrite !elem_of_app, elem_of_guarded, !elem_of_guarded_neg,
      list_elem_of_singleton.
    unfold is_null. rewrite Z.leb_le, !Z.eqb_neq. tauto. }
  unfold driver_released, release_trace.
  cbn [spi_fd chip dc_line rst_line busy_line initialized].
  destruct (Z.leb_spec 0 (spi_fd (drv w))) as [Hfd|Hfd].
  - repeat split; lia.
  - repeat split; try lia.
    destruct (Z.leb_spec 0 (spi_fd (drv w))); [lia|done].
Qed.

(** C8.  On a ready driver [display_clear] is [display_image_raw] on a
    frame of 4000 bytes 0xFF in full mode: the same events, the same
    packets to the panel, the same result. *)
Theorem display_clear_is_white_full_refresh (E : Env) (w : World) :
  Ready (drv w) →
  display_clear E w =
    display_image_raw E (Some (replicate 4000 0xFF)) DISPLAY_MODE_FULL w ∧
  sends (display_clear E) w true
    (Cmd 0x24 :: map Data (replicate 4000 0xFF)
     ++ [Cmd 0x22; Data 0xF7; Cmd 0x20]).
Proof.
  intros Hready. split.
  - apply display_clear_unfold, Hready.
  - exact (display_clear_ready E w Hready).
Qed.

Lemma display_clear_is_white_full_refresh_witness :
  Ready (drv world_ready) ∧
  display_clear (env_ok image_100) world_ready =
    display_image_raw (env_ok image_100) (Some (replicate 4000 0xFF))
      DISPLAY_MODE_FULL world_ready.
Proof.
  split; [exact world_ready_is_Ready|].
  exact (proj1 (display_clear_is_white_full_refresh (env_ok image_100)
                  world_ready world_ready_is_Ready)).
Defined.

(** C9.  [lcd_chkstatus] always returns.  It reads the busy line, and as
    long as the line read 1 and fewer than 1000 rounds are done it sleeps
    10 ms and reads again: [n] rounds, at most 1000, and the read that ends
    the loop is other than 1 unless the 1000 rounds are used up.  Then it
    prints the warning and returns all the same; the driver's variables
    are untouched and the display operation around it still returns
    [true]. *)
Theorem lcd_chkstatus_terminates (E : Env) (w : World) :
  ∃ (n : nat) (last : Z),
    (n ≤ 1000)%nat ∧
    (last ≠ 1 ∨ n = 1000%nat) ∧
    lcd_chkstatus E w =
      Ok tt {| drv := drv w;
               log := rev (poll_trace (busy_line (drv w)) n last) ++ log w |} ∧
    (∀ frame mode,
       Ready (drv w) → EPD_ARRAY ≤ Z.of_nat (length frame) →
       returned (display_image_raw E (Some frame) mode w) = Some true).
Proof.
  destruct (lcd_chkstatus_spec E w) as (n & last & Hn & Hlast & Hrun).
  exists n, last. split; [done|]. split; [done|]. split; [done|].
  intros frame mode Hready Hlen.
  destruct (display_image_raw_ready E (drv w) frame mode Hready Hlen w eq_refl)
    as (ev & Hraw & _).
  exact (f_equal returned Hraw).
Qed.

Lemma lcd_chkstatus_terminates_witness :
  Ready (drv world_ready) ∧
  EPD_ARRAY ≤ Z.of_nat (length buffer_4000) ∧
  returned (lcd_chkstatus (env_stuck image_100) world_ready) = Some tt ∧
  returned (display_image_raw (env_stuck image_100) (Some buffer_4000)
              DISPLAY_MODE_FULL world_ready) = Some true.
Proof.
  assert (Hlen : EPD_ARRAY ≤ Z.of_nat (length buffer_4000))
    by (vm_compute; discriminate).
  split; [exact world_ready_is_Ready|]. split; [exact Hlen|].
  destruct (lcd_chkstatus_terminates (env_stuck image_100) world_ready)
    as (n & last & _ & _ & Hrun & Hraw).
  split; [exact (f_equal returned Hrun)|].
  exact (Hraw buffer_4000 DISPLAY_MODE_FULL world_ready_is_Ready Hlen).
Defined.

(** C10.  [display_get_dimensions] returns from every state and for every
    combination of null and non-null pointers: 128 is stored through
    [width] exactly when it is not null, then 250 through [height] exactly
    when it is not null; no other object changes, and the driver's
    variables and the log are as before. *)
Theorem display_get_dimensions_safe (w : World) (width height : Z)
    (mem : gmap Z Z) :
  ∃ mem',
    display_get_dimensions width height mem w = Ok mem' w ∧
    mem' = stored_unless_null height 250 (stored_unless_null width 128 mem) ∧
    (height ≠ NULL → mem' !! height = Some 250) ∧
    (width ≠ NULL → width ≠ height → mem' !! width = Some 128) ∧
    (∀ a, a ≠ width → a ≠ height → mem' !! a = mem !! a) ∧
    (width = NULL → height = NULL → mem' = mem).
Proof.
  unfold display_get_dimensions, store32, stored_unless_null, is_null.
  run_monad.
  destruct (Z.eqb_spec width NULL) as [->|Hw];
    destruct (Z.eqb_spec height NULL) as [->|Hh];
    cbn [negb]; eexists; (split; [reflexivity|]);
    repeat split; intros; simplify_map_eq; done.
Qed.

Lemma display_get_dimensions_safe_witness :
  ∃ mem',
    display_get_dimensions 0x7000 NULL ∅ world_boot = Ok mem' world_boot ∧
    mem' !! 0x7000 = Some 128 ∧
    mem' !! 0x7004 = None.
Proof.
  destruct (display_get_dimensions_safe world_boot 0x7000 NULL ∅)
    as (mem' & Hrun & _ & _ & Hwidth & Hother & _).
  exists mem'. split; [exact Hrun|]. split.
  - apply Hwidth; discriminate.
  - rewrite Hother by discriminate. reflexivity.
Defined.

(** * Further properties *)

(** ** Functions that leave the driver's variables alone *)

Lemma keeps_ret {A} (a : A) : keeps_drv (mret a).
Proof. intros w a' w1 [= <- <-]. done. Qed.

Lemma keeps_fault {A} : keeps_drv (@fault A).
Proof. intros w a w1 [=]. Qed.

Lemma keeps_bind {A B} (m : M A) (k : A → M B) :
  keeps_drv m → (∀ a, keeps_drv (k a)) → keeps_drv (m ≫= k).
Proof.
  intros Hm Hk w b w2 Hrun. unfold mbind, M_bind in Hrun.
  destruct (m w) as [a w1|] eqn:Hmw; [|done].
  rewrite (Hk a w1 b w2 Hrun). by apply (Hm w a).
Qed.

Lemma keeps_emit (e : Event) : keeps_drv (emit e).
Proof. intros w a w1 [= <- <-]. done. Qed.

Lemma keeps_now : keeps_drv now.
Proof. intros w a w1 [= <- <-]. done. Qed.

Lemma keeps_get_drv : keeps_drv get_drv.
Proof. intros w a w1 [= <- <-]. done. Qed.

Lemma keeps_lift {A} (o : option A) : keeps_drv (lift o).
Proof. destruct o; [apply keeps_ret|apply keeps_fault]. Qed.

Lemma keeps_for_up {S : Type} (body : Z → S → M S) (n : nat) (i : Z) (s : S) :
  (∀ j s', keeps_drv (body j s')) → keeps_drv (for_up n i body s).
Proof.
  intros Hbody. revert i s. induction n as [|n IH]; intros i s.
  - apply keeps_ret.
  - cbn [for_up]. apply keeps_bind; [apply Hbody|]. intros s'. apply IH.
Qed.

Lemma keeps_lcd_chkstatus (E : Env) : keeps_drv (lcd_chkstatus E).
Proof.
  intros w a w1 Hrun.
  destruct (lcd_chkstatus_spec E w) as (n & last & _ & _ & Hspec).
  rewrite Hspec in Hrun. by injection Hrun as <- <-.
Qed.

(** Takes a goal [keeps_drv m] apart along the binds and tests of [m]. *)
Ltac keeps_steps :=
  repeat first
    [ simple apply @keeps_ret | simple apply @keeps_fault
    | simple apply keeps_emit | simple apply keeps_now
    | simple apply keeps_get_drv | simple apply @keeps_lift
    | simple apply keeps_lcd_chkstatus
    | match goal with H : context [keeps_drv] |- _ => simple apply H end
    | simple apply @keeps_bind; [|intros ?]
    | match goal with
      | |- keeps_drv (if ?c then _ else _) => destruct c
      | |- keeps_drv (match ?x with _ => _ end) => destruct x
      end ].

Lemma keeps_gpio_write (E : Env) (pin value : Z) :
  keeps_drv (gpio_write E pin value).
Proof.
  unfold gpio_write, gpiod_line_set_value, printf. keeps_steps.
Qed.

Lemma keeps_write_cmd (E : Env) (cmd : Z) : keeps_drv (epd_w21_write_cmd E cmd).
Proof.
  pose proof (keeps_gpio_write E) as Hgpio.
  unfold epd_w21_write_cmd, spi_delay, usleep, ioctl_spi_message, perror.
  keeps_steps.
Qed.

Lemma keeps_write_data (E : Env) (data : Z) :
  keeps_drv (epd_w21_write_data E data).
Proof.
  pose proof (keeps_gpio_write E) as Hgpio.
  unfold epd_w21_write_data, spi_delay, usleep, ioctl_spi_message, perror.
  keeps_steps.
Qed.

Lemma keeps_display_image_raw (E : Env) (data : option (list Z))
    (mode : display_mode_t) :
  keeps_drv (display_image_raw E data mode).
Proof.
  pose proof (keeps_write_cmd E) as Hcmd.
  pose proof (keeps_write_data E) as Hdata.
  unfold display_image_raw, for_range, epd_init_partial, epd_update,
    epd_update_partial, printf.
  keeps_steps.
  apply keeps_for_up. intros j []. keeps_steps.
Qed.

Lemma keeps_convert (E : Env) (filename : option string)
    (output_data : option (list Z)) :
  keeps_drv (convert_png_to_1bit E filename output_data).
Proof.
  unfold convert_png_to_1bit, lodepng_decode32_file, printf, free.
  keeps_steps.
Qed.

Lemma keeps_display_image_png (E : Env) (filename : option string)
    (mode : display_mode_t) :
  keeps_drv (display_image_png E filename mode).
Proof.
  pose proof (keeps_convert E) as Hconv.
  pose proof (keeps_display_image_raw E) as Hraw.
  unfold display_image_png, uninit_array, printf.
  keeps_steps.
Qed.

Lemma keeps_display_clear (E : Env) : keeps_drv (display_clear E).
Proof.
  pose proof (keeps_display_image_raw E) as Hraw.
  unfold display_clear, uninit_array, printf.
  keeps_steps.
Qed.

Lemma keeps_display_sleep (E : Env) : keeps_drv (display_sleep E).
Proof.
  pose proof (keeps_write_cmd E) as Hcmd.
  pose proof (keeps_write_data E) as Hdata.
  unfold display_sleep, delay_ms, usleep.
  keeps_steps.
Qed.

(** ** Initialisation, path by path *)

Lemma packets_silent_app (dch dc : Z) (t1 t2 : list Event) :
  Forall silent t1 → packets dch dc (t1 ++ t2) = packets dch dc t2.
Proof.
  induction 1 as [|e t He _ IH]; [done|].
  destruct e; cbn [app packets]; done.
Qed.

Lemma packets_app_silent (dch dc : Z) (t1 t2 : list Event) :
  Forall silent t2 → packets dch dc (t1 ++ t2) = packets dch dc t1.
Proof.
  intros Ht2. destruct (packets_app dch dc t1 t2) as [dc' ->].
  by rewrite (packets_silent _ _ _ Ht2), app_nil_r.
Qed.

(** Unfolds [display_init] in a hypothesis down to the calls it makes. *)
Ltac open_display_init H :=
  unfold display_init in H;
  cbv [mbind M_bind get_drv] in H;
  unfold c_open, gpiod_chip_open_by_name, gpiod_chip_get_line,
    any_negative, ioctl, gpiod_line_request_output,
    gpiod_line_request_input in H;
  cbn [foldr] in H.

(** A first call that returned [true]: what it left and what it sent. *)
Lemma display_init_fresh (E : Env) (w w1 : World) :
  display_init E w = Ok true w1 →
  initialized (drv w) = false →
  Ready (drv w1) ∧
  ∃ ev, log w1 = ev ++ log w ∧
        ∀ dc, packets (dc_line (drv w1)) dc (rev ev) = init_packets.
Proof.
  intros Hrun Hinit.
  destruct (display_init_true E w w1 Hrun) as (Hflag & _ & Hrest).
  specialize (Hrest Hinit). destruct Hrest as (Hfd & Hchip & Hdc & Hrst & Hbusy).
  split; [done|].
  open_display_init Hrun. rewrite Hinit in Hrun. run_monad.
  repeat step_run Hrun.
  injection Hrun as <-.
  repeat match goal with
         | H : (_ <? 0) = false |- _ => apply Z.ltb_ge in H
         | H : orb _ _ = false |- _ => apply orb_false_elim in H as [? ?]
         | H : is_null _ = false |- _ => apply Z.eqb_neq in H
         end.
  match goal with
  | H : epd_init_hardware E ?w' = Ok _ _ |- _ =>
      destruct (sends_from_init_hardware E (drv w')) with (w := w')
        as (ev & Hev & Hps); [done|done|done|];
      rewrite Hev in H; injection H as <- <-
  end.
  cbn [drv log initialized spi_fd chip dc_line rst_line busy_line] in *.
  eexists (EvPrintf _ _ :: ev ++ [_; _; _; _; _; _; _; _; _; _; _]).
  split; [by rewrite <- app_comm_cons, <- app_assoc|].
  intros dc. cbn [rev]. rewrite rev_app_distr.
  rewrite packets_app_silent by (by repeat constructor).
  rewrite packets_silent_app; [apply Hps|]. cbn [rev app].
  by repeat constructor.
Qed.

Lemma elem_of_rev {A} (l : list A) (x : A) : x ∈ rev l ↔ x ∈ l.
Proof. rewrite !list_elem_of_In. symmetry. apply in_rev. Qed.

Lemma elem_of_release_trace (d : Driver) (e : Event) :
  e ∈ release_trace d ↔
    e = EvClose (spi_fd d) ∧ 0 ≤ spi_fd d ∨
    e = EvLineRelease (dc_line d) ∧ dc_line d ≠ NULL ∨
    e = EvLineRelease (rst_line d) ∧ rst_line d ≠ NULL ∨
    e = EvLineRelease (busy_line d) ∧ busy_line d ≠ NULL ∨
    e = EvChipClose (chip d) ∧ chip d ≠ NULL ∨
    e = EvPrintf "Display SDK cleaned up\n" [].
Proof.
  unfold release_trace.
  rewrite !elem_of_app, elem_of_guarded, !elem_of_guarded_neg,
    list_elem_of_singleton.
  unfold is_null. rewrite Z.leb_le, !Z.eqb_neq. tauto.
Qed.

(** Splits the log of a goal [∃ ev, .. :: log w = ev ++ log w ∧ _], also
    behind the trace of a cleanup. *)
Ltac split_log_prefix :=
  first [ eexists [_]; split; [reflexivity|]
        | eexists [_; _]; split; [reflexivity|]
        | eexists [_; _; _]; split; [reflexivity|]
        | eexists [_; _; _; _]; split; [reflexivity|]
        | eexists [_; _; _; _; _]; split; [reflexivity|]
        | eexists [_; _; _; _; _; _]; split; [reflexivity|]
        | eexists [_; _; _; _; _; _; _]; split; [reflexivity|]
        | eexists (_ ++ [_; _; _; _; _; _; _; _; _]);
            split; [by rewrite <- app_assoc|]
        | eexists (_ ++ [_; _; _; _; _; _; _; _; _; _]);
            split; [by rewrite <- app_assoc|]
        | eexists (_ ++ [_; _; _; _; _; _; _; _; _; _; _]);
            split; [by rewrite <- app_assoc|]
        | eexists (_ ++ [_; _; _; _; _; _; _; _; _; _; _; _]);
            split; [by rewrite <- app_assoc|] ].

(** Membership of an event in a log made of conses, appends and the trace
    of a cleanup: the hypotheses are taken apart, the goal is searched. *)
Ltac pick_event :=
  first [ reflexivity
        | split; [reflexivity | first [assumption | lia]]
        | left; pick_event
        | right; pick_event ].

Ltac events_membership :=
  repeat match goal with
         | H : _ ∈ _ |- _ =>
             rewrite ?elem_of_app, ?elem_of_rev, ?elem_of_release_trace,
               ?elem_of_cons, ?elem_of_nil in H;
             cbn [spi_fd chip dc_line rst_line busy_line] in H;
             destruct_or! H; destruct_and?; try done
         end;
  repeat match goal with
         | H : @eq Event _ _ |- _ =>
             first [ discriminate H
                   | injection H as ? ? ?; subst
                   | injection H as ? ?; subst
                   | injection H as ?; subst ]
         end;
  rewrite ?elem_of_app, ?elem_of_rev, ?elem_of_release_trace,
    ?elem_of_cons, ?elem_of_nil;
  cbn [spi_fd chip dc_line rst_line busy_line];
  try lia; pick_event.

(** A call that returned [false]: nothing is held afterwards, nothing was
    sent to the panel, and what had been acquired was given back. *)
Lemma display_init_failed (E : Env) (w w1 : World) :
  display_init E w = Ok false w1 →
  initialized (drv w) = false ∧
  initialized (drv w1) = false ∧
  spi_fd (drv w1) < 0 ∧
  (chip (drv w) = NULL → chip (drv w1) = NULL) ∧
  (dc_line (drv w) = NULL → dc_line (drv w1) = NULL) ∧
  (rst_line (drv w) = NULL → rst_line (drv w1) = NULL) ∧
  (busy_line (drv w) = NULL → busy_line (drv w1) = NULL) ∧
  ∃ ev, log w1 = ev ++ log w ∧
        Forall silent ev ∧
        (0 ≤ open_result E (length (log w)) "/dev/spidev0.0" →
         EvClose (open_result E (length (log w)) "/dev/spidev0.0") ∈ ev) ∧
        (∀ c pin, EvGetLine c pin ∈ ev → EvChipClose c ∈ ev) ∧
        (∀ l name v, EvRequestOutput l name v ∈ ev → EvLineRelease l ∈ ev) ∧
        (∀ l name, EvRequestInput l name ∈ ev → EvLineRelease l ∈ ev).
Proof.
  intros Hrun. open_display_init Hrun.
  destruct (initialized (drv w)) eqn:Hinit; [discriminate Hrun|].
  split; [done|]. run_monad.
  repeat (first [rewrite display_cleanup_spec in Hrun | step_run Hrun]).
  all: injection Hrun as <-.
  all: cbn [drv log initialized spi_fd chip dc_line rst_line busy_line
            driver_released].
  all: repeat match goal with
         | H : (_ <? 0) = false |- _ => apply Z.ltb_ge in H
         | H : (_ <? 0) = true |- _ => apply Z.ltb_lt in H
         end.
  all: repeat match goal with
         | H : orb _ _ = false |- _ => apply orb_false_elim in H as [? ?]
         | H : is_null _ = false |- _ => apply Z.eqb_neq in H
         | H : is_null _ = true |- _ => apply is_null_true in H
         end.
  all: split; [done|].
  all: split; [try (destruct (Z.leb_spec 0 (open_result E (length (log w))
                                              "/dev/spidev0.0"))); lia|].
  all: do 4 (split; [done|]).
  all: split_log_prefix.
  all: split; [unfold release_trace; repeat case_match; by repeat constructor|].
  all: cbn [length] in *.
  all: repeat split; intros; events_membership.
Qed.

(** [display_init] returns whatever the environment answers: no call is
    made on a null chip or line. *)
Lemma display_init_returns (E : Env) (w : World) :
  ∃ b w1, display_init E w = Ok b w1.
Proof.
  destruct (display_init E w) as [b w1|] eqn:Hrun; [by eauto|].
  exfalso. open_display_init Hrun.
  destruct (initialized (drv w)); [discriminate Hrun|].
  run_monad.
  repeat (first [rewrite display_cleanup_spec in Hrun | step_run Hrun]).
  all: try discriminate Hrun.
  all: repeat match goal with
         | H : (_ <? 0) = false |- _ => apply Z.ltb_ge in H
         | H : orb _ _ = false |- _ => apply orb_false_elim in H as [? ?]
         | H : is_null _ = false |- _ => apply Z.eqb_neq in H
         | H : is_null _ = true |- _ => apply is_null_true in H
         end.
  all: try congruence.
  match goal with
  | H : epd_init_hardware E ?w' = Fault |- _ =>
      destruct (sends_from_init_hardware E (drv w')) with (w := w')
        as (ev & Hev & _); [done|done|done|];
      rewrite Hev in H; discriminate H
  end.
Qed.

(** Where every acquisition succeeds, a first call returns [true]. *)
Lemma display_init_succeeds (E : Env) (w : World) :
  healthy E → initialized (drv w) = false →
  ∃ w1, display_init E w = Ok true w1.
Proof.
  intros (Hopen & Hioctl & Hchip & Hline & Hreq) Hinit.
  destruct (display_init_returns E w) as (b & w1 & Hrun).
  destruct b; [by eauto|]. exfalso.
  open_display_init Hrun. rewrite Hinit in Hrun. run_monad.
  repeat (first [rewrite display_cleanup_spec in Hrun | step_run Hrun]).
  all: repeat match goal with
         | H : orb _ _ = true |- _ => apply orb_true_iff in H as [H|H]
         end.
  all: repeat match goal with
         | H : (open_result _ ?t ?p <? 0) = true |- _ =>
             apply Z.ltb_lt in H; specialize (Hopen t p); lia
         | H : (ioctl_result _ ?t <? 0) = true |- _ =>
             apply Z.ltb_lt in H; specialize (Hioctl t); lia
         | H : (request_result _ ?t <? 0) = true |- _ =>
             apply Z.ltb_lt in H; specialize (Hreq t); lia
         | H : is_null (chip_open_result _ ?t) = true |- _ =>
             apply is_null_true in H; by destruct (Hchip t)
         | H : is_null (get_line_result _ ?t ?p) = true |- _ =>
             apply is_null_true in H; by destruct (Hline t p ltac:(done))
         end.
Qed.

(** ** Refusals and early returns *)

Lemma display_image_raw_refused (E : Env) (data : option (list Z))
    (mode : display_mode_t) (w : World) :
  initialized (drv w) = false ∨ data = None →
  display_image_raw E data mode w =
    Ok false
       {| drv := drv w;
          log := EvPrintf "Error: Display not initialized or invalid data\n" []
                 :: log w |}.
Proof.
  intros Hbad. unfold display_image_raw. run_monad.
  destruct Hbad as [-> | ->]; [done|].
  by destruct (initialized (drv w)).
Qed.

Lemma display_image_png_refused (E : Env) (filename : option string)
    (mode : display_mode_t) (w : World) :
  initialized (drv w) = false ∨ filename = None →
  display_image_png E filename mode w =
    Ok false
       {| drv := drv w;
          log := EvPrintf "Error: Display not initialized or invalid filename\n" []
                 :: log w |}.
Proof.
  intros Hbad. unfold display_image_png. cbv [mbind M_bind get_drv].
  destruct Hbad as [-> | ->]; [done|].
  by destruct (initialized (drv w)).
Qed.

Lemma display_clear_refused (E : Env) (w : World) :
  initialized (drv w) = false →
  display_clear E w =
    Ok false
       {| drv := drv w;
          log := EvPrintf "Error: Display not initialized\n" [] :: log w |}.
Proof.
  intros Hinit. unfold display_clear. cbv [mbind M_bind get_drv].
  by rewrite Hinit.
Qed.

Lemma display_sleep_refused (E : Env) (w : World) :
  initialized (drv w) = false → display_sleep E w = Ok tt w.
Proof.
  intros Hinit. unfold display_sleep. cbv [mbind M_bind get_drv].
  by rewrite Hinit.
Qed.

Lemma convert_decode_error (E : Env) (w : World) (fname : string)
    (out : list Z) :
  dec_error (decode_result E (length (log w)) fname) ≠ 0 →
  convert_png_to_1bit E (Some fname) (Some out) w =
    Ok (false, Some out)
       {| drv := drv w;
          log := EvPrintf "Error loading PNG: %s\n"
                   [ArgStr (lodepng_error_text E
                              (dec_error (decode_result E (length (log w)) fname)))]
                 :: EvDecode fname :: log w |}.
Proof.
  intros Herr. unfold convert_png_to_1bit. run_monad.
  by destruct (Z.eqb_spec (dec_error (decode_result E (length (log w)) fname)) 0).
Qed.

(** [display_image_png] on an image that does not decode or has the wrong
    size: what it logs, newest event first. *)
Lemma display_image_png_rejects (E : Env) (w : World) (fname : string)
    (mode : display_mode_t) :
  initialized (drv w) = true →
  dec_error (decode_result E (length (log w)) fname) ≠ 0 ∨
  dec_width (decode_result E (length (log w)) fname) ≠ EPD_WIDTH ∨
  dec_height (decode_result E (length (log w)) fname) ≠ EPD_HEIGHT →
  ∃ ev, display_image_png E (Some fname) mode w =
          Ok false
             {| drv := drv w;
                log := EvPrintf "Error: Failed to convert PNG to 1-bit data\n" []
                       :: ev ++ log w |} ∧
        Forall silent ev ∧
        head (rev ev) = Some (EvDecode fname).
Proof.
  intros Hinit Hbad.
  set (img := decode_result E (length (log w)) fname) in *.
  unfold display_image_png.
  cbv [mbind M_bind get_drv uninit_array now mret M_ret].
  rewrite Hinit. cbn [negb orb]. rewrite bool_decide_eq_true_2 by done.
  cbn [negb].
  destruct (decide (dec_error img = 0)) as [Herr|Herr].
  - rewrite (convert_rejects E w fname _ Herr) by (by destruct Hbad).
    fold img. cbn [negb]. eexists [_; _; _].
    split; [reflexivity|]. split; [by repeat constructor|done].
  - rewrite (convert_decode_error E w fname _ Herr).
    fold img. cbn [negb]. eexists [_; _].
    split; [reflexivity|]. split; [by repeat constructor|done].
Qed.

(** ** The frame as a function of the image *)

Lemma packed_ext (f g : Z → bool) :
  (∀ p, 0 ≤ p < EPD_WIDTH * EPD_HEIGHT → f p = g p) →
  packed f = packed g.
Proof.
  change (EPD_WIDTH * EPD_HEIGHT) with 32000. intros Hfg.
  apply list_eq. intros i.
  destruct (decide (i < Z.to_nat EPD_ARRAY)%nat) as [Hi|Hi].
  - rewrite !lookup_packed by done. f_equal. apply pack8_ext.
    intros k Hk. apply Hfg. change EPD_ARRAY with 4000 in Hi. lia.
  - rewrite !(proj2 (lookup_ge_None _ _)); [done| |];
      rewrite length_packed; lia.
Qed.

Lemma packed_const (f : Z → bool) (b : bool) :
  (∀ p, 0 ≤ p < EPD_WIDTH * EPD_HEIGHT → f p = b) →
  packed f = replicate (Z.to_nat EPD_ARRAY) (if b then 0xFF else 0x00).
Proof.
  intros Hf. rewrite (packed_ext f (λ _, b) Hf).
  apply list_eq. intros i.
  destruct (decide (i < Z.to_nat EPD_ARRAY)%nat) as [Hi|Hi].
  - rewrite lookup_packed, lookup_replicate_2 by done. by destruct b.
  - rewrite !(proj2 (lookup_ge_None _ _)); [done| |].
    + rewrite length_replicate. lia.
    + rewrite length_packed. lia.
Qed.

Lemma px_white_rgb (d1 d2 : list Z) (p : Z) :
  (∀ c, 0 ≤ c < 3 → sample d1 p c = sample d2 p c) →
  px_white d1 p = px_white d2 p.
Proof.
  intros Hrgb. unfold px_white. by rewrite !Hrgb by lia.
Qed.

(** ** The busy wait, poll by poll *)

Lemma chkstatus_loop_step (E : Env) (wd : Z) (w : World) :
  is_null (busy_line (drv w)) = false →
  chkstatus_loop E wd w =
    if decide (get_value_result E (length (log w)) = 1 ∧ wd < 1000)
    then chkstatus_loop E (wd + 1)
           {| drv := drv w;
              log := EvUsleep 10000
                     :: EvLineGetValue (busy_line (drv w))
                          (get_value_result E (length (log w)))
                     :: log w |}
    else Ok wd
           {| drv := drv w;
              log := EvLineGetValue (busy_line (drv w))
                       (get_value_result E (length (log w)))
                     :: log w |}.
Proof.
  intros Hline.
  funelim (chkstatus_loop E wd w);
    rewrite ?gpio_read_busy, ?delay_ms_10, ?Hline in *; cbn zeta in *;
    repeat match goal with
           | H : Ok _ _ = Fault |- _ => discriminate H
           | H : Ok _ _ = Ok _ _ |- _ => injection H as ? ?; subst
           end.
  - by rewrite decide_False.
  - by rewrite decide_True.
Qed.

(** If the first [k] polls read 1 and the next one reads [v], other than
    1 unless the counter is at 1000 by then, the loop makes exactly [k]
    rounds. *)
Lemma chkstatus_loop_exact (E : Env) (k : nat) (wd : Z) (w : World) (v : Z) :
  is_null (busy_line (drv w)) = false →
  wd + Z.of_nat k ≤ 1000 →
  (∀ i, (i < k)%nat → get_value_result E (length (log w) + 2 * i) = 1) →
  get_value_result E (length (log w) + 2 * k) = v →
  v ≠ 1 ∨ wd + Z.of_nat k = 1000 →
  chkstatus_loop E wd w =
    Ok (wd + Z.of_nat k)
       {| drv := drv w;
          log := rev (concat (replicate k [EvLineGetValue (busy_line (drv w)) 1;
                                           EvUsleep 10000])
                      ++ [EvLineGetValue (busy_line (drv w)) v])
                 ++ log w |}.
Proof.
  revert wd w. induction k as [|k IH]; intros wd w Hline Hk Hones Hv Hstop.
  - rewrite chkstatus_loop_step by done.
    replace (length (log w) + 2 * 0)%nat with (length (log w)) in Hv by lia.
    rewrite Hv. rewrite decide_False by lia.
    by rewrite Z.add_0_r.
  - rewrite chkstatus_loop_step by done.
    pose proof (Hones 0%nat ltac:(lia)) as H0.
    replace (length (log w) + 2 * 0)%nat with (length (log w)) in H0 by lia.
    rewrite H0. rewrite decide_True by lia.
    rewrite (IH (wd + 1)); cbn [drv log length]; try done; try lia.
    + f_equal; [lia|]. f_equal.
      cbn [replicate concat]. rewrite <- !app_assoc. cbn [app].
      cbn [rev]. by rewrite <- !app_assoc.
    + intros i Hi. rewrite <- (Hones (Datatypes.S i)) by lia. f_equal. lia.
    + rewrite <- Hv. f_equal. lia.
Qed.

(** ** A frame that is too short *)

Lemma frame_loop_overrun (E : Env) (frame : list Z) (n : nat) (i : Z)
    (w : World) :
  0 ≤ spi_fd (drv w) → dc_line (drv w) ≠ NULL →
  0 ≤ i ≤ Z.of_nat (length frame) →
  Z.of_nat (length frame) < i + Z.of_nat n →
  for_up n i (λ i (_ : unit), b ← lift (load frame i); epd_w21_write_data E b)
    tt w = Fault.
Proof.
  revert i w. induction n as [|n IH]; intros i w Hfd Hdc Hi Hn; [lia|].
  cbn [for_up]. unfold mbind at 1, M_bind at 1.
  destruct (decide (i = Z.of_nat (length frame))) as [->|Hne].
  - unfold load. destruct (Z.ltb_spec (Z.of_nat (length frame)) 0); [done|].
    rewrite (proj2 (lookup_ge_None _ _)) by lia. done.
  - destruct (load_is_Some frame i) as [b Hb]; [lia|].
    rewrite Hb. cbn [lift]. unfold mbind at 1, M_bind at 1. cbv [mret M_ret].
    destruct (sends_write_data E b w Hfd Hdc) as (ev & Hrun & _).
    rewrite Hrun. apply IH; cbn [drv]; try done; lia.
Qed.

Lemma bind_ok {A B} (m : M A) (k : A → M B) (w w1 : World) (a : A) :
  m w = Ok a w1 → (m ≫= k) w = k a w1.
Proof. intros Hm. unfold mbind, M_bind. by rewrite Hm. Qed.

Lemma bind_fault {A B} (m : M A) (k : A → M B) (w : World) :
  m w = Fault → (m ≫= k) w = Fault.
Proof. intros Hm. unfold mbind, M_bind. by rewrite Hm. Qed.

Lemma display_image_raw_overrun (E : Env) (w : World) (frame : list Z)
    (mode : display_mode_t) :
  Ready (drv w) →
  Z.of_nat (length frame) < EPD_ARRAY →
  display_image_raw E (Some frame) mode w = Fault.
Proof.
  intros (Hinit & Hfd & _ & Hdc & _) Hlen.
  unfold display_image_raw.
  rewrite (bind_ok get_drv _ w w (drv w) eq_refl).
  rewrite Hinit. cbn [negb orb].
  rewrite bool_decide_eq_true_2 by done. cbn [negb].
  rewrite (bind_ok (lift (Some frame)) _ w w frame eq_refl).
  assert (Hpre : ∃ ev, (match mode with
                        | DISPLAY_MODE_PARTIAL => epd_init_partial E
                        | DISPLAY_MODE_FULL => mret ()
                        end) w = Ok tt {| drv := drv w; log := ev ++ log w |}).
  { destruct mode.
    - exists []. by destruct w.
    - destruct (sends_from_init_partial E (drv w) Hfd Hdc w eq_refl)
        as (ev & Hrun & _). by exists ev. }
  destruct Hpre as (ev0 & Hpre).
  rewrite (bind_ok _ _ _ _ _ Hpre).
  destruct (sends_write_cmd E 0x24 {| drv := drv w; log := ev0 ++ log w |}
              Hfd Hdc) as (ev1 & Hcmd & _).
  rewrite (bind_ok _ _ _ _ _ Hcmd).
  apply bind_fault. unfold for_range.
  apply frame_loop_overrun; cbn [drv]; try done;
    change EPD_ARRAY with 4000 in *; lia.
Qed.

(** ** The concrete worlds of the further properties *)

Lemma healthy_env_ok (img : Decoded) : healthy (env_ok img).
Proof.
  repeat split; intros; cbn [env_ok open_result ioctl_result
    chip_open_result get_line_result request_result]; unfold NULL in *;
    done || lia.
Qed.

Lemma valid_image_white : valid_image image_white.
Proof.
  split; [reflexivity|]. split; [reflexivity|]. split; [reflexivity|].
  split; [vm_compute; reflexivity|].
  cbn [dec_data image_white]. apply Forall_replicate. lia.
Qed.

Lemma valid_image_white_clear : valid_image image_white_clear.
Proof.
  split; [reflexivity|]. split; [reflexivity|]. split; [reflexivity|].
  split; [vm_compute; reflexivity|].
  cbn [dec_data image_white_clear]. apply Forall_concat, Forall_replicate.
  repeat constructor; lia.
Qed.

Lemma sample_white (p c : Z) :
  0 ≤ p < 32000 → 0 ≤ c < 3 → sample (dec_data image_white) p c = 255.
Proof.
  intros Hp Hc. unfold sample, load. cbn [dec_data image_white].
  destruct (Z.ltb_spec (4 * p + c) 0); [lia|].
  by rewrite lookup_replicate_2 by lia.
Qed.

Lemma sample_white_clear (p c : Z) :
  0 ≤ p < 32000 → 0 ≤ c < 3 → sample (dec_data image_white_clear) p c = 255.
Proof.
  intros Hp Hc. unfold sample, load. cbn [dec_data image_white_clear].
  destruct (Z.ltb_spec (4 * p + c) 0); [lia|].
  replace (Z.to_nat (4 * p + c))
    with (Z.to_nat p * 4 + Z.to_nat c)%nat by lia.
  pose proof (lookup_concat_replicate [255; 255; 255; 0] (Z.to_nat 32000)
                (Z.to_nat p) (Z.to_nat c)) as Hlk.
  cbn [length] in Hlk. rewrite Hlk by lia. clear Hlk.
  assert (Hcase : c = 0 ∨ c = 1 ∨ c = 2) by lia.
  by destruct Hcase as [->|[->| ->]].
Qed.

Lemma is_null_false (p : Z) : p ≠ NULL → is_null p = false.
Proof. unfold is_null. by intros ?%Z.eqb_neq. Qed.

Lemma px_white_threshold (image_data : list Z) (p : Z) :
  Forall (λ b, 0 ≤ b < 256) image_data →
  px_white image_data p = true ↔
    387 ≤ sample image_data p 0 + sample image_data p 1 + sample image_data p 2.
Proof.
  intros Hbytes. unfold px_white.
  destruct (bit_of_gray (sample image_data p 0) (sample image_data p 1)
              (sample image_data p 2)) as [H1 H2];
    try by apply sample_range.
  by rewrite H1, H2.
Qed.

Lemma packed_uniform (img : Decoded) (b : bool) :
  valid_image img →
  (∀ p, 0 ≤ p < EPD_WIDTH * EPD_HEIGHT →
        if b
        then 387 ≤ sample (dec_data img) p 0 + sample (dec_data img) p 1
                   + sample (dec_data img) p 2
        else sample (dec_data img) p 0 + sample (dec_data img) p 1
             + sample (dec_data img) p 2 < 387) →
  packed (px_white (dec_data img)) =
    replicate (Z.to_nat EPD_ARRAY) (if b then 0xFF else 0x00).
Proof.
  intros (_ & _ & _ & _ & Hbytes) Hsum.
  apply packed_const. intros p Hp. specialize (Hsum p Hp).
  pose proof (px_white_threshold (dec_data img) p Hbytes) as Hth.
  destruct b.
  - by apply Hth.
  - destruct (px_white (dec_data img) p); [|done].
    assert (387 ≤ sample (dec_data img) p 0 + sample (dec_data img) p 1
                  + sample (dec_data img) p 2) by by apply Hth.
    lia.
Qed.

Lemma consistent_boot : consistent driver_boot.
Proof. intros Hinit. discriminate Hinit. Qed.

(** * Further properties of the functions *)

(** X1. The first call of [display_init] that returns true leaves the
    driver ready (flag set, descriptor not negative, chip and the three
    lines not null), only adds to the log, and what it sent to the panel
    is exactly the register sequence of [epd_init_hardware]: software
    reset 0x12, driver output control 0x01 with 249, 0, 0, data entry
    mode, the RAM window, border waveform, display update control,
    temperature sensor and the RAM address counters. *)
Theorem display_init_first_call (E : Env) (w w1 : World) :
  display_init E w = Ok true w1 →
  initialized (drv w) = false →
  Ready (drv w1) ∧
  ∃ ev, log w1 = ev ++ log w ∧
        ∀ dc, packets (dc_line (drv w1)) dc (rev ev) = init_packets.
Proof. apply display_init_fresh. Qed.

Lemma display_init_first_call_witness :
  display_init (env_ok image_100) world_boot
    = Ok true (world_after_init (env_ok image_100)) ∧
  initialized (drv world_boot) = false ∧
  Ready (drv (world_after_init (env_ok image_100))).
Proof.
  assert (Hrun : display_init (env_ok image_100) world_boot
                 = Ok true (world_after_init (env_ok image_100)))
    by (vm_compute; reflexivity).
  split; [exact Hrun|]. split; [reflexivity|].
  exact (proj1 (display_init_first_call _ _ _ Hrun eq_refl)).
Defined.





(** X4. [display_init] returns a boolean from every state of the driver
    and whatever the operating system answers: no path dereferences a
    null handle or leaves the function without a result. *)
Theorem display_init_always_returns (E : Env) (w : World) :
  ∃ b w1, display_init E w = Ok b w1.
Proof. apply display_init_returns. Qed.

(** X5. [display_image_raw], [display_image_png], [display_clear],
    [display_sleep] and [convert_png_to_1bit] never assign the driver's
    variables: whenever one of them returns, the descriptor, the chip,
    the three lines and the flag are what they were before the call. *)
Theorem display_operations_keep_driver (E : Env) (data : option (list Z))
    (filename : option string) (output : option (list Z))
    (mode : display_mode_t) :
  keeps_drv (display_image_raw E data mode) ∧
  keeps_drv (display_image_png E filename mode) ∧
  keeps_drv (display_clear E) ∧
  keeps_drv (display_sleep E) ∧
  keeps_drv (convert_png_to_1bit E filename output).
Proof.
  split; [apply keeps_display_image_raw|].
  split; [apply keeps_display_image_png|].
  split; [apply keeps_display_clear|].
  split; [apply keeps_display_sleep|].
  apply keeps_convert.
Qed.

(** X6. The flag implies the resources: the driver starts with the flag
    false, and when [initialized] is set only together with a descriptor
    that is not negative and a chip and three lines that are not null,
    this still holds after any call of [display_init],
    [display_cleanup], [display_image_raw], [display_image_png],
    [display_clear] or [display_sleep] that returns. *)
Theorem api_preserves_consistency (E : Env) (w : World) :
  consistent (drv w) →
  consistent (drv world_boot) ∧
  (∀ b w1, display_init E w = Ok b w1 → consistent (drv w1)) ∧
  (∀ w1, display_cleanup w = Ok tt w1 → consistent (drv w1)) ∧
  (∀ data mode b w1,
     display_image_raw E data mode w = Ok b w1 → consistent (drv w1)) ∧
  (∀ filename mode b w1,
     display_image_png E filename mode w = Ok b w1 → consistent (drv w1)) ∧
  (∀ b w1, display_clear E w = Ok b w1 → consistent (drv w1)) ∧
  (∀ w1, display_sleep E w = Ok tt w1 → consistent (drv w1)).
Proof.
  intros Hcons.
  split; [apply consistent_boot|].
  split.
  { intros [] w1 Hrun.
    - destruct (initialized (drv w)) eqn:Hinit.
      + destruct (display_init_true E w w1 Hrun) as (_ & Hsame & _).
        rewrite (Hsame Hinit). intros _. by apply Hcons.
      + intros _. exact (proj1 (display_init_fresh E w w1 Hrun Hinit)).
    - destruct (display_init_failed E w w1 Hrun) as (_ & Hflag & _).
      intros Hset. congruence. }
  split.
  { intros w1 Hrun. rewrite display_cleanup_spec in Hrun.
    injection Hrun as <-. intros Hset. discriminate Hset. }
  split.
  { intros data mode b w1 Hrun.
    by rewrite (keeps_display_image_raw E data mode w b w1 Hrun). }
  split.
  { intros filename mode b w1 Hrun.
    by rewrite (keeps_display_image_png E filename mode w b w1 Hrun). }
  split.
  { intros b w1 Hrun. by rewrite (keeps_display_clear E w b w1 Hrun). }
  intros w1 Hrun. by rewrite (keeps_display_sleep E w tt w1 Hrun).
Qed.

Lemma api_preserves_consistency_witness :
  consistent (drv world_boot) ∧
  ∀ b w1, display_init (env_ok image_100) world_boot = Ok b w1 →
          consistent (drv w1).
Proof.
  split; [apply consistent_boot|].
  exact (proj1 (proj2 (api_preserves_consistency (env_ok image_100)
                         world_boot consistent_boot))).
Defined.

(** X7. On a driver whose flag is false, or with a null frame or file
    name, the display operations are refused before anything is done:
    [display_image_raw], [display_image_png] and [display_clear] print
    their message and return false, [display_sleep] returns at once; no
    file is decoded, nothing is sent to the panel and no line is
    driven. *)
Theorem display_operations_refused (E : Env) (w : World)
    (data : option (list Z)) (filename : option string)
    (mode : display_mode_t) :
  (initialized (drv w) = false ∨ data = None →
   display_image_raw E data mode w =
     Ok false
        {| drv := drv w;
           log := EvPrintf "Error: Display not initialized or invalid data\n" []
                  :: log w |}) ∧
  (initialized (drv w) = false ∨ filename = None →
   display_image_png E filename mode w =
     Ok false
        {| drv := drv w;
           log := EvPrintf
                    "Error: Display not initialized or invalid filename\n" []
                  :: log w |}) ∧
  (initialized (drv w) = false →
   display_clear E w =
     Ok false
        {| drv := drv w;
           log := EvPrintf "Error: Display not initialized\n" [] :: log w |}) ∧
  (initialized (drv w) = false → display_sleep E w = Ok tt w).
Proof.
  split; [apply display_image_raw_refused|].
  split; [apply display_image_png_refused|].
  split; [apply display_clear_refused | apply display_sleep_refused].
Qed.

Lemma display_operations_refused_witness :
  initialized (drv world_boot) = false ∧
  display_sleep (env_ok image_100) world_boot = Ok tt world_boot.
Proof.
  split; [reflexivity|].
  exact (proj2 (proj2 (proj2
           (display_operations_refused (env_ok image_100) world_boot
              None None DISPLAY_MODE_FULL))) eq_refl).
Defined.

(** X8. After [display_cleanup], from any state of the driver, every
    display operation is refused: [display_image_raw],
    [display_image_png] and [display_clear] return false and
    [display_sleep] does nothing, until [display_init] is called
    again. *)
Theorem display_cleanup_then_refused (E : Env) (w : World)
    (data : option (list Z)) (filename : option string)
    (mode : display_mode_t) :
  ∃ w1, display_cleanup w = Ok tt w1 ∧
        returned (display_image_raw E data mode w1) = Some false ∧
        returned (display_image_png E filename mode w1) = Some false ∧
        returned (display_clear E w1) = Some false ∧
        display_sleep E w1 = Ok tt w1.
Proof.
  eexists. split; [apply display_cleanup_spec|].
  split; [by rewrite display_image_raw_refused by (left; reflexivity)|].
  split; [by rewrite display_image_png_refused by (left; reflexivity)|].
  split; [by rewrite display_clear_refused by reflexivity|].
  by apply display_sleep_refused.
Qed.

(** X9. On an initialized driver [display_image_png] with a file that
    lodepng cannot decode, or whose decoded size is not 128x250, returns
    false, leaves the driver's variables alone and sends nothing to the
    panel: the file is decoded first, the last line printed is the
    conversion failure message. *)
Theorem display_image_png_rejects_file (E : Env) (w : World) (fname : string)
    (mode : display_mode_t) :
  initialized (drv w) = true →
  dec_error (decode_result E (length (log w)) fname) ≠ 0 ∨
  dec_width (decode_result E (length (log w)) fname) ≠ EPD_WIDTH ∨
  dec_height (decode_result E (length (log w)) fname) ≠ EPD_HEIGHT →
  sends (display_image_png E (Some fname) mode) w false [] ∧
  ∃ ev, display_image_png E (Some fname) mode w =
          Ok false
             {| drv := drv w;
                log := EvPrintf "Error: Failed to convert PNG to 1-bit data\n" []
                       :: ev ++ log w |} ∧
        head (rev ev) = Some (EvDecode fname).
Proof.
  intros Hinit Hbad.
  destruct (display_image_png_rejects E w fname mode Hinit Hbad)
    as (ev & Hrun & Hsilent & Hfirst).
  split; [|by exists ev].
  exists (EvPrintf "Error: Failed to convert PNG to 1-bit data\n" [] :: ev).
  split; [exact Hrun|].
  intros dc. apply packets_silent. apply Forall_rev.
  by constructor.
Qed.

Lemma display_image_png_rejects_file_witness :
  initialized (drv world_ready) = true ∧
  dec_width (decode_result (env_ok image_100) (length (log world_ready))
               "logo.png") ≠ EPD_WIDTH ∧
  sends (display_image_png (env_ok image_100) (Some "logo.png"%string)
           DISPLAY_MODE_FULL) world_ready false [].
Proof.
  assert (Hwidth : dec_width (decode_result (env_ok image_100)
                                (length (log world_ready)) "logo.png")
                   ≠ EPD_WIDTH) by (vm_compute; discriminate).
  split; [reflexivity|]. split; [exact Hwidth|].
  exact (proj1 (display_image_png_rejects_file (env_ok image_100) world_ready
                  "logo.png" DISPLAY_MODE_FULL eq_refl
                  (or_intror (or_introl Hwidth)))).
Defined.

(** X10. On a ready driver and a valid 128x250 image,
    [display_image_png] is [convert_png_to_1bit] into a 4000-byte buffer
    followed by [display_image_raw] on the converted frame: the
    conversion returns true with the packed frame whatever the buffer
    held, and both display calls return true and send the same packets,
    those of that frame in the given mode. *)
Theorem display_image_png_composes (E : Env) (w : World) (fname : string)
    (mode : display_mode_t) (buf : list Z) :
  Ready (drv w) →
  valid_image (decode_result E (length (log w)) fname) →
  Z.of_nat (length buf) = EPD_ARRAY →
  ∃ frame,
    frame = packed (px_white (dec_data (decode_result E (length (log w)) fname)))
    ∧ returned (convert_png_to_1bit E (Some fname) (Some buf) w)
      = Some (true, Some frame)
    ∧ sends (display_image_png E (Some fname) mode) w true
        (frame_packets mode frame)
    ∧ sends (display_image_raw E (Some frame) mode) w true
        (frame_packets mode frame).
Proof.
  intros Hready Hvalid Hlen.
  eexists. split; [reflexivity|].
  split.
  { rewrite convert_accepts by (done || lia). cbn [returned].
    rewrite drop_ge by lia. by rewrite app_nil_r. }
  split; [by apply display_image_png_ready|].
  apply (display_image_raw_ready E (drv w)); [done| |done].
  rewrite length_packed. lia.
Qed.

Lemma display_image_png_composes_witness :
  Ready (drv world_ready) ∧
  valid_image (decode_result (env_ok image_white) (length (log world_ready))
                 "logo.png") ∧
  Z.of_nat (length buffer_4000) = EPD_ARRAY ∧
  ∃ frame,
    frame = packed (px_white (dec_data image_white))
    ∧ returned (convert_png_to_1bit (env_ok image_white)
                  (Some "logo.png"%string) (Some buffer_4000) world_ready)
      = Some (true, Some frame)
    ∧ sends (display_image_png (env_ok image_white) (Some "logo.png"%string)
               DISPLAY_MODE_PARTIAL) world_ready true
        (frame_packets DISPLAY_MODE_PARTIAL frame)
    ∧ sends (display_image_raw (env_ok image_white) (Some frame)
               DISPLAY_MODE_PARTIAL) world_ready true
        (frame_packets DISPLAY_MODE_PARTIAL frame).
Proof.
  assert (Hlen : Z.of_nat (length buffer_4000) = EPD_ARRAY)
    by (vm_compute; reflexivity).
  split; [exact world_ready_is_Ready|].
  split; [exact valid_image_white|].
  split; [exact Hlen|].
  exact (display_image_png_composes (env_ok image_white) world_ready
           "logo.png" DISPLAY_MODE_PARTIAL buffer_4000
           world_ready_is_Ready valid_image_white Hlen).
Defined.

(** X11. The early returns of [convert_png_to_1bit]: with a null file
    name or a null output buffer it returns false without decoding
    anything; when lodepng reports an error it prints the error text and
    returns false, the output buffer is not written and, unlike the
    dimension mismatch path, [free] is not called. *)
Theorem convert_png_to_1bit_early_returns (E : Env) (w : World)
    (filename : option string) (output : option (list Z)) :
  (filename = None ∨ output = None →
   convert_png_to_1bit E filename output w = Ok (false, output) w) ∧
  (∀ fname out,
     filename = Some fname → output = Some out →
     dec_error (decode_result E (length (log w)) fname) ≠ 0 →
     convert_png_to_1bit E filename output w =
       Ok (false, Some out)
          {| drv := drv w;
             log := EvPrintf "Error loading PNG: %s\n"
                      [ArgStr (lodepng_error_text E
                                 (dec_error
                                    (decode_result E (length (log w)) fname)))]
                    :: EvDecode fname :: log w |}).
Proof.
  split.
  - intros [-> | ->]; [reflexivity|]. by destruct filename.
  - intros fname out -> -> Herr. by apply convert_decode_error.
Qed.

Lemma convert_png_to_1bit_early_returns_witness :
  dec_error (decode_result (env_ok image_undecodable)
               (length (log world_ready)) "logo.png") ≠ 0 ∧
  returned (convert_png_to_1bit (env_ok image_undecodable)
              (Some "logo.png"%string) (Some buffer_4000) world_ready)
    = Some (false, Some buffer_4000).
Proof.
  assert (Herr : dec_error (decode_result (env_ok image_undecodable)
                              (length (log world_ready)) "logo.png") ≠ 0)
    by (vm_compute; discriminate).
  split; [exact Herr|].
  exact (f_equal returned
           (proj2 (convert_png_to_1bit_early_returns
                     (env_ok image_undecodable) world_ready
                     (Some "logo.png"%string) (Some buffer_4000))
              "logo.png"%string buffer_4000 eq_refl eq_refl Herr)).
Defined.

(** X12. The converted frame is a function of the red, green and blue
    samples alone: two valid 128x250 images that agree on these three
    channels of every pixel convert to the same 4000 bytes, whatever
    their alpha samples, the environment, and the previous contents of
    the two output buffers. *)
Theorem convert_png_to_1bit_rgb_only (E1 E2 : Env) (w1 w2 : World)
    (f1 f2 : string) (out1 out2 : list Z) :
  valid_image (decode_result E1 (length (log w1)) f1) →
  valid_image (decode_result E2 (length (log w2)) f2) →
  (∀ p c, 0 ≤ p < EPD_WIDTH * EPD_HEIGHT → 0 ≤ c < 3 →
          sample (dec_data (decode_result E1 (length (log w1)) f1)) p c
          = sample (dec_data (decode_result E2 (length (log w2)) f2)) p c) →
  Z.of_nat (length out1) = EPD_ARRAY →
  Z.of_nat (length out2) = EPD_ARRAY →
  ∃ frame,
    returned (convert_png_to_1bit E1 (Some f1) (Some out1) w1)
      = Some (true, Some frame) ∧
    returned (convert_png_to_1bit E2 (Some f2) (Some out2) w2)
      = Some (true, Some frame).
Proof.
  intros Hv1 Hv2 Hsame Hl1 Hl2.
  eexists. split.
  - rewrite convert_accepts by (done || lia). cbn [returned].
    rewrite drop_ge by lia. by rewrite app_nil_r.
  - rewrite convert_accepts by (done || lia). cbn [returned].
    rewrite drop_ge by lia. rewrite app_nil_r.
    do 3 f_equal. apply packed_ext. intros p Hp.
    symmetry. apply px_white_rgb. intros c Hc. by apply Hsame.
Qed.

Lemma convert_png_to_1bit_rgb_only_witness :
  ∃ frame,
    returned (convert_png_to_1bit (env_ok image_white)
                (Some "opaque.png"%string) (Some buffer_4000) world_ready)
      = Some (true, Some frame) ∧
    returned (convert_png_to_1bit (env_ok image_white_clear)
                (Some "clear.png"%string)
                (Some (replicate (Z.to_nat 4000) 0x00)) world_ready)
      = Some (true, Some frame).
Proof.
  apply (convert_png_to_1bit_rgb_only (env_ok image_white)
           (env_ok image_white_clear) world_ready world_ready
           "opaque.png" "clear.png" buffer_4000
           (replicate (Z.to_nat 4000) 0x00)).
  - exact valid_image_white.
  - exact valid_image_white_clear.
  - intros p c Hp Hc.
    cbn [env_ok decode_result].
    change (EPD_WIDTH * EPD_HEIGHT) with 32000 in Hp.
    rewrite sample_white by assumption.
    rewrite sample_white_clear by assumption. reflexivity.
  - vm_compute; reflexivity.
  - vm_compute; reflexivity.
Defined.

(** X13. An image that is bright everywhere (red + green + blue at least
    387 in every pixel) converts to 4000 bytes 0xFF, one that is dark
    everywhere (the sum below 387 in every pixel) to 4000 bytes 0x00;
    bytes of the buffer past the first 4000 are kept. *)
Theorem convert_png_to_1bit_uniform (E : Env) (w : World) (fname : string)
    (out : list Z) (b : bool) :
  valid_image (decode_result E (length (log w)) fname) →
  EPD_ARRAY ≤ Z.of_nat (length out) →
  (∀ p, 0 ≤ p < EPD_WIDTH * EPD_HEIGHT →
        if b
        then 387 ≤ sample (dec_data (decode_result E (length (log w)) fname)) p 0
                   + sample (dec_data (decode_result E (length (log w)) fname)) p 1
                   + sample (dec_data (decode_result E (length (log w)) fname)) p 2
        else sample (dec_data (decode_result E (length (log w)) fname)) p 0
             + sample (dec_data (decode_result E (length (log w)) fname)) p 1
             + sample (dec_data (decode_result E (length (log w)) fname)) p 2
             < 387) →
  returned (convert_png_to_1bit E (Some fname) (Some out) w) =
    Some (true,
          Some (replicate (Z.to_nat EPD_ARRAY) (if b then 0xFF else 0x00)
                ++ drop (Z.to_nat EPD_ARRAY) out)).
Proof.
  intros Hvalid Hlen Hsum.
  rewrite convert_accepts by done. cbn [returned].
  by rewrite (packed_uniform _ b Hvalid Hsum).
Qed.

Lemma convert_png_to_1bit_uniform_witness :
  returned (convert_png_to_1bit (env_ok image_white) (Some "white.png"%string)
              (Some buffer_4000) world_ready) =
    Some (true,
          Some (replicate (Z.to_nat EPD_ARRAY) 0xFF
                ++ drop (Z.to_nat EPD_ARRAY) buffer_4000)).
Proof.
  apply (convert_png_to_1bit_uniform (env_ok image_white) world_ready
           "white.png" buffer_4000 true).
  - exact valid_image_white.
  - vm_compute; discriminate.
  - intros p Hp. cbn [env_ok decode_result].
    change (EPD_WIDTH * EPD_HEIGHT) with 32000 in Hp.
    rewrite !sample_white by lia. lia.
Defined.

(** X14. Showing a PNG that is bright everywhere in full mode is the
    same to the panel as [display_clear]: on a ready driver both return
    true and send command 0x24, 4000 data bytes 0xFF, command 0x22 with
    data 0xF7 and command 0x20. *)
Theorem bright_png_is_display_clear (E : Env) (w : World) (fname : string) :
  Ready (drv w) →
  valid_image (decode_result E (length (log w)) fname) →
  (∀ p, 0 ≤ p < EPD_WIDTH * EPD_HEIGHT →
        387 ≤ sample (dec_data (decode_result E (length (log w)) fname)) p 0
              + sample (dec_data (decode_result E (length (log w)) fname)) p 1
              + sample (dec_data (decode_result E (length (log w)) fname)) p 2) →
  sends (display_image_png E (Some fname) DISPLAY_MODE_FULL) w true
    ([Cmd 0x24] ++ replicate (Z.to_nat EPD_ARRAY) (Data 0xFF)
     ++ [Cmd 0x22; Data 0xF7; Cmd 0x20]) ∧
  sends (display_clear E) w true
    ([Cmd 0x24] ++ replicate (Z.to_nat EPD_ARRAY) (Data 0xFF)
     ++ [Cmd 0x22; Data 0xF7; Cmd 0x20]).
Proof.
  intros Hready Hvalid Hsum.
  assert (Hps : frame_packets DISPLAY_MODE_FULL
                  (replicate (Z.to_nat EPD_ARRAY) 0xFF)
                = [Cmd 0x24] ++ replicate (Z.to_nat EPD_ARRAY) (Data 0xFF)
                  ++ [Cmd 0x22; Data 0xF7; Cmd 0x20]).
  { unfold frame_packets. rewrite take_replicate, Nat.min_id.
    by rewrite fmap_replicate. }
  rewrite <- Hps. split.
  - rewrite <- (packed_uniform _ true Hvalid Hsum).
    by apply display_image_png_ready.
  - by apply display_clear_ready.
Qed.

Lemma bright_png_is_display_clear_witness :
  sends (display_image_png (env_ok image_white) (Some "white.png"%string)
           DISPLAY_MODE_FULL) world_ready true
    ([Cmd 0x24] ++ replicate (Z.to_nat EPD_ARRAY) (Data 0xFF)
     ++ [Cmd 0x22; Data 0xF7; Cmd 0x20]) ∧
  sends (display_clear (env_ok image_white)) world_ready true
    ([Cmd 0x24] ++ replicate (Z.to_nat EPD_ARRAY) (Data 0xFF)
     ++ [Cmd 0x22; Data 0xF7; Cmd 0x20]).
Proof.
  apply (bright_png_is_display_clear (env_ok image_white) world_ready
           "white.png").
  - exact world_ready_is_Ready.
  - exact valid_image_white.
  - intros p Hp. cbn [env_ok decode_result].
    change (EPD_WIDTH * EPD_HEIGHT) with 32000 in Hp.
    rewrite !sample_white by lia. lia.
Defined.

(** X15. [lcd_chkstatus] stops at the first read of the busy line that
    is not 1: when the line reads 1 on the first [k] polls and [v] on
    the next, with [v] other than 1 or [k] equal to the limit 1000, the
    function makes exactly [k] pairs of a read and a 10 ms sleep and one
    last read, and prints the timeout warning exactly when [k] is
    1000. *)
Theorem lcd_chkstatus_stops_at_first_idle_read (E : Env) (w : World)
    (k : nat) (v : Z) :
  busy_line (drv w) ≠ NULL →
  (k ≤ 1000)%nat →
  (∀ i, (i < k)%nat → get_value_result E (length (log w) + 2 * i) = 1) →
  get_value_result E (length (log w) + 2 * k) = v →
  v ≠ 1 ∨ k = 1000%nat →
  lcd_chkstatus E w =
    Ok tt {| drv := drv w;
             log := rev (poll_trace (busy_line (drv w)) k v) ++ log w |}.
Proof.
  intros Hline Hk Hones Hlast Hstop.
  apply is_null_false in Hline.
  unfold lcd_chkstatus, poll_trace. rewrite Hline.
  unfold mbind, M_bind.
  rewrite (chkstatus_loop_exact E k 0 w v) by (done || lia).
  rewrite Z.add_0_l.
  destruct (Z.leb_spec 1000 (Z.of_nat k)).
  - unfold printf, emit. f_equal. cbn [drv log]. f_equal.
    rewrite !app_assoc.
    rewrite (rev_app_distr _ [EvPrintf _ _]). reflexivity.
  - unfold mret, M_ret. by rewrite app_nil_r.
Qed.

Lemma lcd_chkstatus_stops_at_first_idle_read_witness :
  busy_line (drv world_ready) ≠ NULL ∧
  lcd_chkstatus (env_stuck image_100) world_ready =
    Ok tt {| drv := drv world_ready;
             log := rev (poll_trace (busy_line (drv world_ready)) 1000 1)
                    ++ log world_ready |}.
Proof.
  assert (Hline : busy_line (drv world_ready) ≠ NULL)
    by (vm_compute; discriminate).
  split; [exact Hline|].
  apply (lcd_chkstatus_stops_at_first_idle_read (env_stuck image_100)
           world_ready 1000 1 Hline).
  - lia.
  - intros i _. reflexivity.
  - reflexivity.
  - right. reflexivity.
Defined.

(** X16. [display_image_raw] does not know the length of the caller's
    buffer: on a ready driver a frame shorter than 4000 bytes is read
    past its end, after the bytes that are there have been sent. *)
Theorem display_image_raw_short_frame (E : Env) (w : World) (frame : list Z)
    (mode : display_mode_t) :
  Ready (drv w) →
  Z.of_nat (length frame) < EPD_ARRAY →
  display_image_raw E (Some frame) mode w = Fault.
Proof. apply display_image_raw_overrun. Qed.

Lemma display_image_raw_short_frame_witness :
  Ready (drv world_ready) ∧
  Z.of_nat (length frame_short) < EPD_ARRAY ∧
  display_image_raw (env_ok image_100) (Some frame_short) DISPLAY_MODE_FULL
    world_ready = Fault.
Proof.
  assert (Hlen : Z.of_nat (length frame_short) < EPD_ARRAY)
    by (vm_compute; reflexivity).
  split; [exact world_ready_is_Ready|]. split; [exact Hlen|].
  exact (display_image_raw_short_frame (env_ok image_100) world_ready
           frame_short DISPLAY_MODE_FULL world_ready_is_Ready Hlen).
Defined.

(** X17. [display_cleanup] followed by [display_init] starts the panel
    afresh: when every acquisition succeeds, from any state of the
    driver the cleanup returns, the following [display_init] returns
    true, the driver is ready, and the register sequence of
    [epd_init_hardware] has been sent again. *)
Theorem display_cleanup_then_init (E : Env) (w : World) :
  healthy E →
  ∃ w1 w2,
    display_cleanup w = Ok tt w1 ∧
    display_init E w1 = Ok true w2 ∧
    Ready (drv w2) ∧
    ∃ ev, log w2 = ev ++ log w1 ∧
          ∀ dc, packets (dc_line (drv w2)) dc (rev ev) = init_packets.
Proof.
  intros Hhealthy.
  eexists. 
  destruct (display_init_succeeds E
              {| drv := driver_released (drv w);
                 log := rev (release_trace (drv w)) ++ log w |}
              Hhealthy eq_refl) as (w2 & Hrun).
  exists w2. split; [apply display_cleanup_spec|].
  split; [exact Hrun|].
  exact (display_init_fresh E _ w2 Hrun eq_refl).
Qed.

Lemma display_cleanup_then_init_witness :
  healthy (env_ok image_100) ∧
  ∃ w1 w2,
    display_cleanup world_ready = Ok tt w1 ∧
    display_init (env_ok image_100) w1 = Ok true w2 ∧
    Ready (drv w2) ∧
    ∃ ev, log w2 = ev ++ log w1 ∧
          ∀ dc, packets (dc_line (drv w2)) dc (rev ev) = init_packets.
Proof.
  split; [apply healthy_env_ok|].
  exact (display_cleanup_then_init (env_ok image_100) world_ready
           (healthy_env_ok image_100)).
Defined.

(** X18. Without a descriptor or a line the private functions do
    nothing: [epd_w21_write_cmd] and [epd_w21_write_data] return at once
    when the descriptor is negative, [gpio_write] on a pin other than
    the data/command and reset pins, or on a line that is null, drives
    nothing, and [gpio_read] answers -1 without reading for a pin other
    than the busy pin or when the busy line is null. *)
Theorem private_functions_without_resources (E : Env) (w : World)
    (b pin value : Z) :
  (spi_fd (drv w) < 0 →
   epd_w21_write_cmd E b w = Ok tt w ∧ epd_w21_write_data E b w = Ok tt w) ∧
  (pin ≠ DC_PIN ∧ pin ≠ RST_PIN ∨
   pin = DC_PIN ∧ dc_line (drv w) = NULL ∨
   pin = RST_PIN ∧ rst_line (drv w) = NULL →
   gpio_write E pin value w = Ok tt w) ∧
  (pin ≠ BUSY_PIN ∨ busy_line (drv w) = NULL →
   gpio_read E pin w = Ok (-1) w).
Proof.
  split; [|split].
  - intros Hfd. unfold epd_w21_write_cmd, epd_w21_write_data.
    unfold mbind, M_bind, get_drv.
    destruct (Z.ltb_spec (spi_fd (drv w)) 0); [done|lia].
  - intros Hpin. unfold gpio_write, mbind, M_bind, get_drv.
    destruct Hpin as [[Hdc Hrst] | [[-> Hnull] | [-> Hnull]]].
    + apply Z.eqb_neq in Hdc, Hrst. by rewrite Hdc, Hrst.
    + cbn [Z.eqb DC_PIN Pos.eqb]. by rewrite Hnull.
    + change (RST_PIN =? DC_PIN) with false. rewrite Z.eqb_refl.
      by rewrite Hnull.
  - intros Hpin. unfold gpio_read, mbind, M_bind, get_drv.
    destruct Hpin as [Hpin | Hnull].
    + apply Z.eqb_neq in Hpin. by rewrite Hpin.
    + rewrite Hnull. by rewrite andb_false_r.
Qed.

Lemma private_functions_without_resources_witness :
  spi_fd (drv world_boot) < 0 ∧
  epd_w21_write_cmd (env_ok image_100) 0x12 world_boot = Ok tt world_boot ∧
  epd_w21_write_data (env_ok image_100) 0x12 world_boot = Ok tt world_boot.
Proof.
  assert (Hfd : spi_fd (drv world_boot) < 0) by (vm_compute; reflexivity).
  split; [exact Hfd|].
  exact (proj1 (private_functions_without_resources (env_ok image_100)
                  world_boot 0x12 0 0) Hfd).
Defined.
